(** * Temporal intelligence of the vibe memory server

    A shallow embedding of [temporal_intelligence.py]
    (apps/mcp-server/vibe-memory-rag/src): intent classification, the
    temporal profile of a memory collection, temporal scoring, timestamp
    retrieval, query routing and the ranking explanation; together with
    the embedding cache of [utils.py] ([create_embedding]) and the
    retrieval stage of [_unified_search_core] in [main.py], which chains
    them.

    Conventions of the embedding.
    - A Python [float] is a real number ([R]): arithmetic is exact and there
      is neither NaN nor rounding.  Where numpy would produce NaN (the cosine
      of a zero vector) the model says so with an [option].  Where rounding
      decides a property (the cosine of the intent classifier), the
      arithmetic is embedded a second time on binary64 numbers, in
      [Module Float64].
    - A memory record is a [dict]; the model keeps the keys this module
      reads or writes, each one optional.
    - [time.time()] is the parameter [current_time]; one call of a method
      sees one clock value.
    - [try ... except] is an [option]: [None] is a raised exception, and the
      handler is the [None] branch of a [match].
    - [datetime.fromisoformat(s).timestamp()] and the embedding service
      [create_embedding] are collaborators outside this module; they are
      section variables. *)

From Stdlib Require Import Reals Lra Lia List String Ascii ZArith Bool.
From Stdlib Require Import Permutation Sorted DecimalString.
From Stdlib Require PrimFloat.
Import ListNotations.

Open Scope string_scope.
Open Scope R_scope.

(* ================================================================= *)
(** ** Data model *)

Inductive QueryIntent : Type :=
| TEMPORAL_PRIMARY
| TEMPORAL_SECONDARY
| SEMANTIC_ONLY.

Definition QueryIntent_eqb (a b : QueryIntent) : bool :=
  match a, b with
  | TEMPORAL_PRIMARY, TEMPORAL_PRIMARY => true
  | TEMPORAL_SECONDARY, TEMPORAL_SECONDARY => true
  | SEMANTIC_ONLY, SEMANTIC_ONLY => true
  | _, _ => false
  end.

(** [temporal_distribution]: a dict with the three keys below. *)
Record Distribution : Type := mkDistribution {
  recent : R;
  medium : R;
  old : R
}.

Record TemporalProfile : Type := mkTemporalProfile {
  mean_age_hours : R;
  std_age_hours : R;
  recent_threshold_hours : R;
  old_threshold_hours : R;
  temporal_distribution : Distribution
}.

(** The dynamically typed values the module can meet under a key. *)
Inductive PyValue : Type :=
| PyNone
| PyStr (s : string)
| PyFloat (x : R)
| PyObject.   (* any other object (a non-empty list or dict): truthy, and
                 neither comparable with nor convertible to a float *)

(** A memory record.  [None] in a field is an absent key.  [score], when
    present, is a float. *)
Record Memory : Type := mkMemory {
  mem_id : string;
  memory : string;
  created_at : option PyValue;
  score : option R;
  temporal_score : option R;
  original_semantic_score : option R;
  age_hours : option R;
  sort_timestamp : option R
}.

Definition embedding : Type := list R.

(** The instance state: [self._profile], [self._query_embeddings_cache]. *)
Record TemporalIntelligence : Type := mkTemporalIntelligence {
  _profile : option TemporalProfile;
  _query_embeddings_cache : list (string * embedding)
}.

(** Parameters of a retrieval strategy, one constructor per dict shape. *)
Inductive StrategyParams : Type :=
| TimestampDirectParams (limit : Z) (time_filter_hours : option R)
| HybridParams (semantic_limit_multiplier : Z) (temporal_weight : PyValue)
               (use_fresh_memory_boost : bool)
| SemanticOnlyParams (limit : Z) (use_reranking : bool).

(* ================================================================= *)
(** ** Python primitives *)

(** Comparisons of floats as booleans. *)
Definition Rleb (x y : R) : bool := if Rle_dec x y then true else false.
Definition Rltb (x y : R) : bool := if Rlt_dec x y then true else false.
Definition Rgtb (x y : R) : bool := if Rgt_dec x y then true else false.
Definition Rgeb (x y : R) : bool := if Rge_dec x y then true else false.
Definition Reqb (x y : R) : bool := if Req_dec_T x y then true else false.

(** Proof helper: decide the first comparison in the goal and keep the
    inequality it yields. *)
Ltac case_cmp :=
  let E := fresh "E" in
  let H := fresh "Hcmp" in
  match goal with
  | |- context [Rleb ?x ?y] =>
      destruct (Rleb x y) eqn:E; unfold Rleb in E;
      destruct (Rle_dec x y) as [H|H]; try discriminate E; clear E
  | |- context [Rltb ?x ?y] =>
      destruct (Rltb x y) eqn:E; unfold Rltb in E;
      destruct (Rlt_dec x y) as [H|H]; try discriminate E; clear E
  | |- context [Rgtb ?x ?y] =>
      destruct (Rgtb x y) eqn:E; unfold Rgtb in E;
      destruct (Rgt_dec x y) as [H|H]; try discriminate E; clear E
  | |- context [Rgeb ?x ?y] =>
      destruct (Rgeb x y) eqn:E; unfold Rgeb in E;
      destruct (Rge_dec x y) as [H|H]; try discriminate E; clear E
  | |- context [Reqb ?x ?y] =>
      destruct (Reqb x y) eqn:E; unfold Reqb in E;
      destruct (Req_dec_T x y) as [H|H]; try discriminate E; clear E
  end.

(** [bool(v)]. *)
Definition truthy (v : PyValue) : bool :=
  match v with
  | PyNone => false
  | PyStr s => negb (String.eqb s "")
  | PyFloat x => negb (Reqb x 0)
  | PyObject => true
  end.

(** [v > y] for a float [y]; [None] is the TypeError. *)
Definition py_gt (v : PyValue) (y : R) : option bool :=
  match v with
  | PyFloat x => Some (Rgtb x y)
  | _ => None
  end.

(** [v * y] for a float [y]; [None] is the TypeError. *)
Definition py_mul (v : PyValue) (y : R) : option PyValue :=
  match v with
  | PyFloat x => Some (PyFloat (x * y))
  | _ => None
  end.

(** [max(a, b)] of two arguments: [b] when [b > a], else [a]. *)
Definition py_max (a b : R) : R := if Rgtb b a then b else a.

(** [min(a, b)] of two arguments: [b] when [b < a], else [a]. *)
Definition py_min (a b : R) : R := if Rltb b a then b else a.

(** [s.replace('Z', '+00:00')]. *)
Fixpoint replace_Z (s : string) : string :=
  match s with
  | EmptyString => EmptyString
  | String c s' =>
      if Ascii.eqb c "Z"%char then "+00:00" ++ replace_Z s'
      else String c (replace_Z s')
  end.

(** [s.lower()] on ASCII text. *)
Definition lower_char (c : ascii) : ascii :=
  let n := nat_of_ascii c in
  if ((65 <=? n) && (n <=? 90))%nat then ascii_of_nat (n + 32) else c.

Fixpoint lower (s : string) : string :=
  match s with
  | EmptyString => EmptyString
  | String c s' => String (lower_char c) (lower s')
  end.

(** [c.isspace()] on ASCII text. *)
Definition is_space (c : ascii) : bool :=
  let n := nat_of_ascii c in
  ((n =? 32) || ((9 <=? n) && (n <=? 13)) || ((28 <=? n) && (n <=? 31)))%nat.

Fixpoint lstrip (s : string) : string :=
  match s with
  | EmptyString => EmptyString
  | String c s' => if is_space c then lstrip s' else s
  end.

Fixpoint rstrip (s : string) : string :=
  match s with
  | EmptyString => EmptyString
  | String c s' =>
      let r := rstrip s' in
      if is_space c && String.eqb r "" then EmptyString else String c r
  end.

(** [s.strip()]. *)
Definition strip (s : string) : string := rstrip (lstrip s).

(** [sub in s]. *)
Fixpoint contains (sub s : string) : bool :=
  String.prefix sub s ||
  match s with
  | EmptyString => false
  | String _ s' => contains sub s'
  end.

(** [s.startswith(prefixes)] for a tuple of prefixes. *)
Definition startswith (prefixes : list string) (s : string) : bool :=
  existsb (fun p => String.prefix p s) prefixes.

(** [len(s.split())]: the number of maximal runs of non-space characters.
    [in_token] says whether the previous character belonged to a token. *)
Fixpoint count_tokens (in_token : bool) (s : string) : nat :=
  match s with
  | EmptyString => 0
  | String c s' =>
      if is_space c then count_tokens false s'
      else if in_token then count_tokens true s'
      else S (count_tokens true s')
  end.

(** [timestamped_memories[:limit]]: a negative bound counts from the end. *)
Definition slice_to {A : Type} (limit : Z) (l : list A) : list A :=
  if (0 <=? limit)%Z then firstn (Z.to_nat limit) l
  else firstn (List.length l - Z.to_nat (- limit)) l.

(* ================================================================= *)
(** ** numpy *)

Fixpoint Rsum (l : list R) : R :=
  match l with
  | [] => 0
  | x :: l' => x + Rsum l'
  end.

Definition np_mean (l : list R) : R := Rsum l / INR (List.length l).

(** [np.var]: the population variance. *)
Definition np_var (l : list R) : R :=
  let m := np_mean l in
  np_mean (map (fun x => (x - m) * (x - m)) l).

Definition np_std (l : list R) : R := sqrt (np_var l).

(** [np.sum(cond)] over a boolean mask. *)
Definition np_count (cond : R -> bool) (l : list R) : nat :=
  List.length (filter cond l).

Fixpoint insert_asc (x : R) (l : list R) : list R :=
  match l with
  | [] => [x]
  | y :: l' => if Rleb x y then x :: l else y :: insert_asc x l'
  end.

Definition np_sort (l : list R) : list R := fold_right insert_asc [] l.

(** [np.percentile(l, q)], default (linear) method, [q] in percent: the
    virtual index [(n - 1) * q / 100] is split into its floor and its
    fractional part, and the two neighbours are interpolated. *)
Definition np_percentile (l : list R) (q : nat) : R :=
  let s := np_sort l in
  let k := ((List.length l - 1) * q)%nat in
  let lo := (k / 100)%nat in
  let hi := Nat.min (lo + 1) (List.length l - 1) in
  let gamma := INR (k mod 100) / 100 in
  let a := nth lo s 0 in
  let b := nth hi s 0 in
  a + (b - a) * gamma.

(** [np.dot] of two vectors; [None] is the ValueError on a shape mismatch. *)
Fixpoint np_dot (a b : embedding) : option R :=
  match a, b with
  | [], [] => Some 0
  | x :: a', y :: b' =>
      match np_dot a' b' with
      | Some d => Some (x * y + d)
      | None => None
      end
  | _, _ => None
  end.

(** [np.linalg.norm]. *)
Definition np_norm (a : embedding) : R :=
  sqrt (Rsum (map (fun x => x * x) a)).

(** [list.sort(key=key, reverse=True)]: the stable descending sort.  The
    result of a stable sort is determined by the keys, so insertion (an
    element goes before the first one whose key is not larger) stands for
    Timsort. *)
Fixpoint insert_desc {A : Type} (key : A -> R) (x : A) (l : list A) : list A :=
  match l with
  | [] => [x]
  | y :: l' =>
      if Rgeb (key x) (key y) then x :: l else y :: insert_desc key x l'
  end.

Definition sort_desc {A : Type} (key : A -> R) (l : list A) : list A :=
  fold_right (insert_desc key) [] l.

(** [a] may stand before [b] in a list sorted in descending order of [key]. *)
Definition desc {A : Type} (key : A -> R) (a b : A) : Prop := key b <= key a.

(* ================================================================= *)
(** ** Query routing *)

Definition semantic_only_default : string * StrategyParams :=
  ("semantic_only", SemanticOnlyParams 5 true).

(** The body of the [try] of [route_query]. *)
Definition route_query_try (query : string) (memory_collection : list Memory)
    (intent : QueryIntent) (confidence : PyValue)
  : option (string * StrategyParams) :=
  match (if QueryIntent_eqb intent TEMPORAL_PRIMARY
         then py_gt confidence 0.8 else Some false) with
  | None => None
  | Some true =>
      Some ("timestamp_direct", TimestampDirectParams 5 None)
  | Some false =>
      if QueryIntent_eqb intent TEMPORAL_PRIMARY then
        Some ("semantic_temporal_hybrid", HybridParams 3 confidence true)
      else if QueryIntent_eqb intent TEMPORAL_SECONDARY then
        match py_mul confidence 0.5 with
        | None => None
        | Some w => Some ("semantic_temporal_hybrid", HybridParams 2 w false)
        end
      else Some ("semantic_only", SemanticOnlyParams 5 true)
  end.

Definition route_query (query : string) (memory_collection : list Memory)
    (intent : QueryIntent) (confidence : PyValue)
  : string * StrategyParams :=
  match route_query_try query memory_collection intent confidence with
  | Some r => r
  | None => semantic_only_default
  end.

(* ================================================================= *)
(** ** The embedding cache of [utils.py]

    [create_embedding] and the module-level state it keeps:
    [_embedding_cache], a dict in insertion order, and [_cache_stats]. *)

Module Utils.

(** A Python dict with string keys, in insertion order. *)
Definition dict_get {V : Type} (d : list (string * V)) (k : string)
  : option V :=
  match find (fun kv => String.eqb (fst kv) k) d with
  | Some kv => Some (snd kv)
  | None => None
  end.

(** [d[k] = v]: an existing key keeps its place, a new one goes last. *)
Fixpoint dict_set {V : Type} (d : list (string * V)) (k : string) (v : V)
  : list (string * V) :=
  match d with
  | [] => [(k, v)]
  | (k', v') :: d' =>
      if String.eqb k' k then (k, v) :: d' else (k', v') :: dict_set d' k v
  end.

(** [del d[k]]. *)
Definition dict_del {V : Type} (d : list (string * V)) (k : string)
  : list (string * V) :=
  filter (fun kv => negb (String.eqb (fst kv) k)) d.

(** The metadata keys [enhance_text_for_embedding] looks at; [None] is an
    absent key, and the values are strings. *)
Record Metadata : Type := mkMetadata {
  title : option string;
  content_type : option string;
  source_id : option string
}.

(** [_embedding_cache] and [_cache_stats]. *)
Record EmbeddingState : Type := mkEmbeddingState {
  _embedding_cache : list (string * embedding);
  hits : nat;
  misses : nat
}.

(** [" | ".join(parts)]. *)
Definition join_bar (parts : list string) : string :=
  String.concat " | " parts.

Definition enhance_text_for_embedding (text : string) (metadata : Metadata)
  : string :=
  let early := substring 0 200 (lower text) in
  let title_part :=
    match title metadata with
    | Some t =>
        if negb (String.eqb t "") && negb (contains (lower t) early)
        then ["Document title: " ++ t] else []
    | None => []
    end in
  let content_type_part :=
    match content_type metadata with
    | Some c =>
        if negb (String.eqb c "general") then ["Content type: " ++ c] else []
    | None => []
    end in
  let domain_part :=
    match source_id metadata with
    | Some d =>
        if negb (String.eqb d "unknown") && negb (contains d early)
        then ["Source domain: " ++ d] else []
    | None => []
    end in
  let enhancements :=
    (title_part ++ content_type_part ++ domain_part)%list in
  match enhancements with
  | [] => text
  | _ =>
      join_bar enhancements
      ++ String (ascii_of_nat 10) (String (ascii_of_nat 10) text)
  end.

Section Embedding.

(** [_get_cache_key(text)]: the first 16 hex digits of the SHA-256 of the
    text (the call passes no metadata). *)
Variable _get_cache_key : string -> string.

(** [get_openai_client().embeddings.create(model, input)] followed by
    [response.data[0].embedding]; [None] is a raised exception. *)
Variable embeddings_create : string -> option embedding.

(** [os.getenv("USE_CONTEXTUAL_EMBEDDINGS", "true").lower() == "true"]. *)
Variable use_contextual_embeddings : bool.

(** The eviction: [for key in list(cache.keys())[:200]: del cache[key]]. *)
Definition evict_oldest (cache : list (string * embedding))
  : list (string * embedding) :=
  fold_left dict_del (firstn 200 (map fst cache)) cache.

(** [embedding_text], the text that is hashed and sent:
    [if metadata and <contextual embeddings enabled>: ...]. *)
Definition embedding_text_of (text : string) (metadata : option Metadata)
  : string :=
  match metadata with
  | Some md =>
      if use_contextual_embeddings
      then enhance_text_for_embedding text md else text
  | None => text
  end.

(** [create_embedding(text, metadata)]; [metadata = None] stands for
    [None] and for the empty dict, which are both falsy.  The result
    [None] is the exception re-raised by the [except] clause. *)
Definition create_embedding (st : EmbeddingState) (text : string)
    (metadata : option Metadata) : option embedding * EmbeddingState :=
  let embedding_text := embedding_text_of text metadata in
  let cache_key := _get_cache_key embedding_text in
  match dict_get (_embedding_cache st) cache_key with
  | Some e =>
      (Some e, mkEmbeddingState (_embedding_cache st) (hits st + 1) (misses st))
  | None =>
      match embeddings_create embedding_text with
      | None =>
          (None,
           mkEmbeddingState (_embedding_cache st) (hits st) (misses st + 1))
      | Some e =>
          let cache := dict_set (_embedding_cache st) cache_key e in
          let cache :=
            if (1000 <? List.length cache)%nat then evict_oldest cache
            else cache in
          (Some e, mkEmbeddingState cache (hits st) (misses st + 1))
      end
  end.

End Embedding.

End Utils.

(* ================================================================= *)
(** ** The classifier's arithmetic on binary64

    [_semantic_temporal_detection] and the weighted sums of
    [analyze_intent] and [_estimate_temporal_benefit], with the floats of
    the source: IEEE 754 binary64, round to nearest.  The constants 0.4,
    0.3 and 0.6 are written as the binary64 numbers Python reads them
    as. *)

Module Float64.

Import PrimFloat.
Local Open Scope float_scope.

Definition c0_4 : float := 0x1.999999999999ap-2.   (* 0.4 *)
Definition c0_3 : float := 0x1.3333333333333p-2.   (* 0.3 *)
Definition c0_6 : float := 0x1.3333333333333p-1.   (* 0.6 *)

Definition one : float := 1.

(** The binary64 number right after 1, printed 1.0000000000000002. *)
Definition next_after_one : float := 0x1.0000000000001p+0.

(** [1.0 < x]. *)
Definition exceeds_one (x : float) : bool := 1 <? x.

(** [max(a, b)]: [b] when [b > a], else [a]; a NaN [b] is never greater. *)
Definition py_max (a b : float) : float := if a <? b then b else a.

(** [np.dot] of two vectors, accumulated from the left; [None] is the
    ValueError on a shape mismatch. *)
Fixpoint dot_from (acc : float) (a b : list float) : option float :=
  match a, b with
  | [], [] => Some acc
  | x :: a', y :: b' => dot_from (acc + x * y) a' b'
  | _, _ => None
  end.

Definition np_dot (a b : list float) : option float := dot_from 0 a b.

(** [np.linalg.norm] of a vector: [sqrt(x.dot(x))]. *)
Definition np_norm (a : list float) : float :=
  match np_dot a a with
  | Some s => sqrt s
  | None => nan
  end.

(** The cosine and the running maximum.  A zero denominator gives NaN, and
    [max(m, nan)] is [m]; nothing clamps the quotient. *)
Definition update_max_similarity (max_similarity : float)
    (query_embedding pattern_embedding : list float) : option float :=
  match np_dot query_embedding pattern_embedding with
  | None => None
  | Some d =>
      Some (py_max max_similarity
              (d / (np_norm query_embedding * np_norm pattern_embedding)))
  end.

Definition cache_get (cache : list (string * list float)) (text : string)
  : option (list float) :=
  match find (fun kv => String.eqb (fst kv) text) cache with
  | Some kv => Some (snd kv)
  | None => None
  end.

Section Detection.

(** [utils.create_embedding]; [None] is a raised exception. *)
Variable create_embedding : string -> option (list float).

Definition cached_embedding (cache : list (string * list float))
    (text : string) : option (list float * list (string * list float)) :=
  match cache_get cache text with
  | Some e => Some (e, cache)
  | None =>
      match create_embedding text with
      | Some e => Some (e, (text, e) :: cache)
      | None => None
      end
  end.

Fixpoint similarity_loop (cache : list (string * list float))
    (query_embedding : list float) (patterns : list string)
    (max_similarity : float) : option float * list (string * list float) :=
  match patterns with
  | [] => (Some max_similarity, cache)
  | pattern :: rest =>
      match cached_embedding cache pattern with
      | None => (None, cache)
      | Some (pattern_embedding, cache') =>
          match update_max_similarity max_similarity query_embedding
                  pattern_embedding with
          | None => (None, cache')
          | Some m => similarity_loop cache' query_embedding rest m
          end
      end
  end.

(** [_semantic_temporal_detection], on the cache alone. *)
Definition _semantic_temporal_detection
    (cache : list (string * list float)) (query : string)
  : float * list (string * list float) :=
  match cached_embedding cache query with
  | None => (0, cache)
  | Some (query_embedding, cache1) =>
      let '(result, cache') :=
        similarity_loop cache1 query_embedding
          [ "show me the most recent information";
            "what was the latest thing I accessed";
            "find my recent activity";
            "chronological order of my browsing";
            "time-based search results";
            "newest entries in my history" ]%string 0 in
      (match result with
       | Some max_similarity => max_similarity
       | None => 0
       end,
       cache')
  end.

End Detection.

(** [recent_factor * 0.6 + variance_factor * 0.4]. *)
Definition temporal_benefit_of (recent_factor variance_factor : float)
  : float :=
  recent_factor * c0_6 + variance_factor * c0_4.

(** [combined_confidence] of [analyze_intent]. *)
Definition combined_confidence
    (temporal_confidence temporal_benefit linguistic_confidence : float)
  : float :=
  temporal_confidence * c0_4
  + temporal_benefit * c0_3
  + linguistic_confidence * c0_3.

(** An embedding service that answers every text with (1, 1, 1). *)
Definition embedding_ones : string -> option (list float) :=
  fun _ => Some [1; 1; 1].

End Float64.

(* ================================================================= *)
(** ** Sample data

    Records, collaborators and instances used to exercise the engine. *)

(** Collaborators that are down: every call raises. *)
Definition iso_unavailable : string -> option R := fun _ => None.
Definition embedding_unavailable : string -> option embedding :=
  fun _ => None.

(** An embedding service that maps every text to the same unit vector. *)
Definition embedding_constant : string -> option embedding :=
  fun _ => Some [1].

(** A freshly constructed [TemporalIntelligence()]. *)
Definition fresh_instance : TemporalIntelligence :=
  mkTemporalIntelligence None [].

(** A record [{"id": id, "created_at": epoch, "score": s}]. *)
Definition memory_at (id : string) (epoch : R) (s : R) : Memory :=
  mkMemory id "" (Some (PyFloat epoch)) (Some s) None None None None.

(** Stand-ins for Python's float formatting and for the cache key. *)
Definition format_fixed_sample : nat -> R -> string := fun _ _ => "0.000".
Definition str_float_sample : R -> string := fun _ => "0.0".
Definition cache_key_sample : string -> string := fun text => text.

(** The module state of [utils.py] right after import. *)
Definition empty_embedding_state : Utils.EmbeddingState :=
  Utils.mkEmbeddingState [] 0 0.

(** A record [{"id": id, "score": s}] with no [created_at] key. *)
Definition memory_undated (id : string) (s : R) : Memory :=
  mkMemory id "" None (Some s) None None None None.

(* ================================================================= *)
(** ** The engine *)

Section Engine.

(** [datetime.fromisoformat(s).timestamp()]; [None] is the ValueError. *)
Variable fromisoformat_timestamp : string -> option R.

(** [utils.create_embedding]; [None] is a raised exception. *)
Variable create_embedding : string -> option embedding.

(** [memory.get("created_at", "")]. *)
Definition get_created_at (m : Memory) : PyValue :=
  match created_at m with
  | Some v => v
  | None => PyStr ""
  end.

(** The timestamp parsing every method repeats:
    [if created_at:], then ISO text or [float(created_at)] inside a [try];
    [None] when the value is falsy or the conversion raises. *)
Definition parse_timestamp (v : PyValue) : option R :=
  if truthy v then
    match v with
    | PyStr s => fromisoformat_timestamp (replace_Z s)
    | PyFloat x => Some x
    | PyNone | PyObject => None
    end
  else None.

(** The loop collecting [ages] from a collection. *)
Fixpoint collect_ages (current_time : R) (memory_collection : list Memory)
  : list R :=
  match memory_collection with
  | [] => []
  | m :: rest =>
      match parse_timestamp (get_created_at m) with
      | Some timestamp =>
          (current_time - timestamp) / 3600 :: collect_ages current_time rest
      | None => collect_ages current_time rest
      end
  end.

(* ----------------------------------------------------------------- *)
(** *** Temporal profile *)

Definition default_profile : TemporalProfile :=
  mkTemporalProfile 24 12 1 168 (mkDistribution 0 0 1).

(** Returned by the outer [except]; no operation of the typed model raises
    there, so [build_temporal_profile] never reaches it. *)
Definition fallback_profile : TemporalProfile :=
  mkTemporalProfile 24 12 1 168 (mkDistribution 0.3 0.4 0.3).

Definition profile_of_ages (ages : list R) : TemporalProfile :=
  let mean_age := np_mean ages in
  let std_age := np_std ages in
  let recent_threshold := py_max 1 (np_percentile ages 25) in
  let old_threshold := py_min 168 (np_percentile ages 75) in
  let recent_count := np_count (fun a => Rleb a recent_threshold) ages in
  let medium_count :=
    np_count (fun a => Rgtb a recent_threshold && Rleb a old_threshold) ages in
  let old_count := np_count (fun a => Rgtb a old_threshold) ages in
  let total := List.length ages in
  let distribution :=
    mkDistribution (INR recent_count / INR total)
                   (INR medium_count / INR total)
                   (INR old_count / INR total) in
  mkTemporalProfile mean_age std_age recent_threshold old_threshold
                    distribution.

Definition build_temporal_profile (self : TemporalIntelligence)
    (current_time : R) (memory_collection : list Memory)
  : TemporalProfile * TemporalIntelligence :=
  match collect_ages current_time memory_collection with
  | [] => (default_profile, self)
  | ages =>
      let profile := profile_of_ages ages in
      (profile,
       mkTemporalIntelligence (Some profile) (_query_embeddings_cache self))
  end.

(* ----------------------------------------------------------------- *)
(** *** Temporal scoring *)

(** [base_score], the local of [_calculate_temporal_score]. *)
Definition base_score (age_hours : R) (profile : TemporalProfile) : R :=
  let decay_rate := 1 / (std_age_hours profile + 1) in
  exp (- decay_rate * age_hours / 24).

Definition boost (age_hours : R) (profile : TemporalProfile) : R :=
  if Rleb age_hours (recent_threshold_hours profile) then 1.2
  else if Rleb age_hours (old_threshold_hours profile) then 1.0
  else 0.8.

(** [1.0 / (std + 1.0)] raises ZeroDivisionError when [std = -1]; the
    handler returns the neutral score. *)
Definition _calculate_temporal_score (age_hours : R)
    (profile : TemporalProfile) : R :=
  if Reqb (std_age_hours profile + 1) 0 then 0.5
  else base_score age_hours profile * boost age_hours profile.

(** [memory_obj.get("score", 0.0)]. *)
Definition get_score (m : Memory) : R :=
  match score m with
  | Some s => s
  | None => 0
  end.

(** [memory_obj.get("temporal_score", 0.0)], the sort key. *)
Definition get_temporal_score (m : Memory) : R :=
  match temporal_score m with
  | Some s => s
  | None => 0
  end.

Definition final_score (current_time : R) (intent : QueryIntent)
    (confidence : R) (profile : TemporalProfile) (memory_obj : Memory) : R :=
  let semantic_score := get_score memory_obj in
  match parse_timestamp (get_created_at memory_obj) with
  | None => semantic_score
  | Some memory_timestamp =>
      let age_hours := (current_time - memory_timestamp) / 3600 in
      if QueryIntent_eqb intent TEMPORAL_PRIMARY then
        let temporal_score := _calculate_temporal_score age_hours profile in
        temporal_score * confidence + semantic_score * (1 - confidence)
      else
        let temporal_score := _calculate_temporal_score age_hours profile in
        let temporal_weight := confidence * 0.5 in
        semantic_score * (1 - temporal_weight)
        + temporal_score * temporal_weight
  end.

(** One iteration of the scoring loop: the decorated copy. *)
Definition score_memory (current_time : R) (intent : QueryIntent)
    (confidence : R) (profile : TemporalProfile) (memory_obj : Memory)
  : Memory :=
  let memory_timestamp := parse_timestamp (get_created_at memory_obj) in
  mkMemory (mem_id memory_obj) (memory memory_obj) (created_at memory_obj)
    (score memory_obj)
    (Some (final_score current_time intent confidence profile memory_obj))
    (Some (get_score memory_obj))
    (match memory_timestamp with
     | Some ts =>
         if Reqb ts 0 then age_hours memory_obj   (* [if memory_timestamp:] *)
         else Some ((current_time - ts) / 3600)
     | None => age_hours memory_obj
     end)
    (sort_timestamp memory_obj).

(** [if profile is None:
      profile = self._profile or self.build_temporal_profile(memory_objects)];
    a profile object is always truthy. *)
Definition resolve_profile (self : TemporalIntelligence) (current_time : R)
    (memory_objects : list Memory) (profile : option TemporalProfile)
  : TemporalProfile * TemporalIntelligence :=
  match profile with
  | Some p => (p, self)
  | None =>
      match _profile self with
      | Some p => (p, self)
      | None => build_temporal_profile self current_time memory_objects
      end
  end.

Definition adaptive_temporal_scoring (self : TemporalIntelligence)
    (current_time : R) (memory_objects : list Memory) (intent : QueryIntent)
    (confidence : R) (profile : option TemporalProfile)
  : list Memory * TemporalIntelligence :=
  if QueryIntent_eqb intent SEMANTIC_ONLY then (memory_objects, self)
  else
    let '(profile, self') :=
      resolve_profile self current_time memory_objects profile in
    (sort_desc get_temporal_score
       (map (score_memory current_time intent confidence profile)
            memory_objects),
     self').

(* ----------------------------------------------------------------- *)
(** *** Timestamp retrieval *)

(** The loop building [timestamped_memories]. *)
Fixpoint timestamped_memories (current_time : R)
    (time_filter_hours : option R) (memory_collection : list Memory)
  : list Memory :=
  match memory_collection with
  | [] => []
  | m :: rest =>
      let tail := timestamped_memories current_time time_filter_hours rest in
      match parse_timestamp (get_created_at m) with
      | None => tail
      | Some timestamp =>
          let too_old :=
            match time_filter_hours with
            | Some h => Rgtb ((current_time - timestamp) / 3600) h
            | None => false
            end in
          if too_old then tail
          else
            mkMemory (mem_id m) (memory m) (created_at m) (score m)
              (temporal_score m) (original_semantic_score m)
              (Some ((current_time - timestamp) / 3600))
              (Some timestamp)
            :: tail
      end
  end.

(** [x["sort_timestamp"]], the sort key; the key is always present. *)
Definition get_sort_timestamp (m : Memory) : R :=
  match sort_timestamp m with
  | Some t => t
  | None => 0
  end.

(** [memory.pop("sort_timestamp", None)]. *)
Definition pop_sort_timestamp (m : Memory) : Memory :=
  mkMemory (mem_id m) (memory m) (created_at m) (score m) (temporal_score m)
    (original_semantic_score m) (age_hours m) None.

Definition get_memories_by_timestamp (current_time : R)
    (memory_collection : list Memory) (limit : Z)
    (time_filter_hours : option R) : list Memory :=
  let sorted :=
    sort_desc get_sort_timestamp
      (timestamped_memories current_time time_filter_hours memory_collection)
  in
  map pop_sort_timestamp (slice_to limit sorted).

(* ----------------------------------------------------------------- *)
(** *** Intent classification *)

Definition cache_get (cache : list (string * embedding)) (text : string)
  : option embedding :=
  match find (fun kv => String.eqb (fst kv) text) cache with
  | Some kv => Some (snd kv)
  | None => None
  end.

(** [cache[text] = e]; a lookup finds the newest binding. *)
Definition cache_set (cache : list (string * embedding)) (text : string)
    (e : embedding) : list (string * embedding) :=
  (text, e) :: cache.

(** [if text not in cache: cache[text] = await create_embedding(text)]
    followed by [cache[text]]; [None] when the embedding call raises. *)
Definition cached_embedding (cache : list (string * embedding))
    (text : string) : option (embedding * list (string * embedding)) :=
  match cache_get cache text with
  | Some e => Some (e, cache)
  | None =>
      match create_embedding text with
      | Some e => Some (e, cache_set cache text e)
      | None => None
      end
  end.

Definition semantic_patterns : list string :=
  [ "show me the most recent information";
    "what was the latest thing I accessed";
    "find my recent activity";
    "chronological order of my browsing";
    "time-based search results";
    "newest entries in my history" ].

(** The cosine similarity and the running maximum.  The outer [None] is the
    ValueError of [np.dot].  A zero denominator makes numpy return NaN (the
    numerator is zero as well), and [max(m, nan)] is [m]. *)
Definition update_max_similarity (max_similarity : R)
    (query_embedding pattern_embedding : embedding) : option R :=
  match np_dot query_embedding pattern_embedding with
  | None => None
  | Some d =>
      let denominator := np_norm query_embedding * np_norm pattern_embedding in
      if Reqb denominator 0 then Some max_similarity
      else Some (py_max max_similarity (d / denominator))
  end.

(** The [for pattern in temporal_patterns] loop; the result is [None] when
    an iteration raises, and the cache keeps what was stored before. *)
Fixpoint similarity_loop (cache : list (string * embedding))
    (query_embedding : embedding) (patterns : list string)
    (max_similarity : R) : option R * list (string * embedding) :=
  match patterns with
  | [] => (Some max_similarity, cache)
  | pattern :: rest =>
      match cached_embedding cache pattern with
      | None => (None, cache)
      | Some (pattern_embedding, cache') =>
          match update_max_similarity max_similarity query_embedding
                  pattern_embedding with
          | None => (None, cache')
          | Some m => similarity_loop cache' query_embedding rest m
          end
      end
  end.

Definition _semantic_temporal_detection (self : TemporalIntelligence)
    (query : string) : R * TemporalIntelligence :=
  match cached_embedding (_query_embeddings_cache self) query with
  | None => (0, self)
  | Some (query_embedding, cache) =>
      let '(result, cache') :=
        similarity_loop cache query_embedding semantic_patterns 0 in
      (match result with
       | Some max_similarity => max_similarity
       | None => 0
       end,
       mkTemporalIntelligence (_profile self) cache')
  end.

Definition _estimate_temporal_benefit (current_time : R) (query : string)
    (memory_collection : list Memory) : R :=
  match memory_collection with
  | [] => 0
  | _ =>
      match collect_ages current_time memory_collection with
      | [] => 0
      | ages =>
          let recent_count := np_count (fun a => Rltb a 24) ages in
          let total_count := List.length ages in
          let age_variance :=
            if (1 <? List.length ages)%nat then np_var ages else 0 in
          let recent_factor :=
            if (0 <? total_count)%nat
            then INR recent_count / INR total_count else 0 in
          let variance_factor := py_min (age_variance / 1000) 1 in
          recent_factor * 0.6 + variance_factor * 0.4
      end
  end.

(** [any(w in q for w in words)]. *)
Definition any_in (words : list string) (q : string) : bool :=
  existsb (fun w => contains w q) words.

(** The five lambdas of [_linguistic_temporal_analysis]. *)
Definition linguistic_patterns : list (string -> bool) :=
  [ any_in ["when"; "what time"; "how long ago"];
    any_in ["most"; "latest"; "newest"; "oldest"; "first"; "last"];
    any_in ["order"; "sequence"; "chronological"; "timeline"];
    (fun q => contains "recent" q || contains "new" q || contains "fresh" q);
    (fun q => contains "before" q || contains "after" q || contains "since" q)
  ].

Definition matched_patterns (query_lower : string) : nat :=
  List.length (filter (fun pattern => pattern query_lower) linguistic_patterns).

Definition _linguistic_temporal_analysis (query : string) : R :=
  let query_lower := strip (lower query) in
  let confidence :=
    py_min (INR (matched_patterns query_lower)
            / INR (List.length linguistic_patterns)) 1 in
  let confidence :=
    if startswith ["what was"; "show me"; "find my"] query_lower
       && (count_tokens false query_lower <=? 6)%nat
    then confidence + 0.2 else confidence in
  py_min confidence 1.

Definition analyze_intent (self : TemporalIntelligence) (current_time : R)
    (query : string) (memory_collection : list Memory)
  : (QueryIntent * R) * TemporalIntelligence :=
  let '(temporal_confidence, self') :=
    _semantic_temporal_detection self query in
  let temporal_benefit :=
    _estimate_temporal_benefit current_time query memory_collection in
  let linguistic_confidence := _linguistic_temporal_analysis query in
  let combined_confidence :=
    temporal_confidence * 0.4
    + temporal_benefit * 0.3
    + linguistic_confidence * 0.3 in
  if Rgeb combined_confidence 0.7 then
    ((TEMPORAL_PRIMARY, combined_confidence), self')
  else if Rgeb combined_confidence 0.3 then
    ((TEMPORAL_SECONDARY, combined_confidence), self')
  else
    ((SEMANTIC_ONLY, combined_confidence), self').

(* ----------------------------------------------------------------- *)
(** *** Ranking explanation *)

(** [f"{x:.1f}"], [f"{x:.3f}"]: a float in fixed notation with the given
    number of decimals; and [f"{x}"], the [str] of a float. *)
Variable format_fixed : nat -> R -> string.
Variable str_float : R -> string.

(** [intent.value]. *)
Definition QueryIntent_value (intent : QueryIntent) : string :=
  match intent with
  | TEMPORAL_PRIMARY => "temporal_primary"
  | TEMPORAL_SECONDARY => "temporal_secondary"
  | SEMANTIC_ONLY => "semantic_only"
  end.

(** [f"{n}"] for a small non-negative integer. *)
Definition str_nat (n : nat) : string :=
  NilZero.string_of_uint (Nat.to_uint n).

Definition newline : string := String (ascii_of_nat 10) EmptyString.

(** [text[:50] + "..." if len(text) > 50 else text]. *)
Definition excerpt (text : string) : string :=
  if (50 <? String.length text)%nat then substring 0 50 text ++ "..."
  else text.

(** One line of the ranking; [None] is the ValueError raised by the format
    code [.3f] when a score is missing and the default ["unknown"] is
    formatted instead. *)
Definition ranking_line (i : nat) (m : Memory) : option string :=
  let age :=
    match age_hours m with
    | Some a => str_float a
    | None => "unknown"
    end in
  match temporal_score m, original_semantic_score m with
  | Some t, Some s =>
      Some ("  " ++ str_nat (i + 1) ++ ". Age: " ++ age
            ++ "h, Temporal: " ++ format_fixed 3 t
            ++ ", Semantic: " ++ format_fixed 3 s
            ++ " - " ++ excerpt (memory m))
  | _, _ => None
  end.

(** [for i, memory in enumerate(...)], from index [i] on. *)
Fixpoint ranking_lines (i : nat) (ms : list Memory) : option (list string) :=
  match ms with
  | [] => Some []
  | m :: rest =>
      match ranking_line i m with
      | None => None
      | Some line =>
          match ranking_lines (S i) rest with
          | None => None
          | Some lines => Some (line :: lines)
          end
      end
  end.

(** The body of the [try] of [explain_ranking]. *)
Definition explain_ranking_try (self : TemporalIntelligence)
    (ranked_memories : list Memory) (intent : QueryIntent) : option string :=
  let header := "Query Intent: " ++ QueryIntent_value intent in
  if negb (QueryIntent_eqb intent SEMANTIC_ONLY)
     && negb (match ranked_memories with [] => true | _ => false end)
  then
    let profile_line :=
      match _profile self with
      | Some profile =>
          ["Temporal Profile: Recent threshold: "
           ++ format_fixed 1 (recent_threshold_hours profile)
           ++ "h, Old threshold: "
           ++ format_fixed 1 (old_threshold_hours profile) ++ "h"]
      | None => []
      end in
    match ranking_lines 0 (firstn 3 ranked_memories) with
    | None => None
    | Some lines =>
        Some (String.concat newline
                (header :: profile_line ++ "Top 3 Rankings:" :: lines)%list)
    end
  else Some (String.concat newline [header]).

Definition explain_ranking (self : TemporalIntelligence)
    (ranked_memories : list Memory) (intent : QueryIntent) : string :=
  match explain_ranking_try self ranked_memories intent with
  | Some text => text
  | None => "Query processed with intent: " ++ QueryIntent_value intent
  end.

(* ----------------------------------------------------------------- *)
(** *** The retrieval stage of [_unified_search_core] ([main.py])

    From the intent analysis to [final_memories].  The collaborator calls
    are inputs: [memory_objects] is the list of records in the response of
    [memory_client.search]; [get_all] is the list in the response of
    [memory_client.get_all], or [None] when that call raises.  Records of
    the memory store carry an [id]. *)

(** [strategy_params.get("time_filter_hours")]. *)
Definition params_time_filter_hours (params : StrategyParams) : option R :=
  match params with
  | TimestampDirectParams _ tf => tf
  | _ => None
  end.

(** [strategy_params.get("use_fresh_memory_boost", False)]. *)
Definition params_use_fresh_memory_boost (params : StrategyParams) : bool :=
  match params with
  | HybridParams _ _ b => b
  | _ => false
  end.

(** "Add fresh memories not in search results": the set of ids is taken
    once, before the loop over [fresh_memory_objects[:10]]. *)
Definition add_fresh_memories (memory_objects fresh_memory_objects
                               : list Memory) : list Memory :=
  let fresh_memory_ids := map mem_id memory_objects in
  (memory_objects
   ++ filter
        (fun fresh_memory =>
           negb (existsb (String.eqb (mem_id fresh_memory)) fresh_memory_ids))
        (firstn 10 fresh_memory_objects))%list.

(** The strategy dispatch.  The result is [final_memories] with the
    instance; [None] is the exception of [get_all] under
    [timestamp_direct], which only the outermost handler catches. *)
Definition execute_strategy (self : TemporalIntelligence) (current_time : R)
    (strategy : string) (strategy_params : StrategyParams)
    (memory_objects : list Memory) (get_all : option (list Memory))
    (intent : QueryIntent) (confidence : R) (limit : Z)
  : option (list Memory * TemporalIntelligence) :=
  if String.eqb strategy "timestamp_direct" then
    match get_all with
    | None => None
    | Some all_memory_objects =>
        Some (get_memories_by_timestamp current_time all_memory_objects limit
                (params_time_filter_hours strategy_params),
              self)
    end
  else if String.eqb strategy "semantic_temporal_hybrid" then
    let memory_objects :=
      if params_use_fresh_memory_boost strategy_params then
        match get_all with
        | Some fresh_memory_objects =>
            add_fresh_memories memory_objects fresh_memory_objects
        | None => memory_objects
        end
      else memory_objects in
    let '(scored, self') :=
      adaptive_temporal_scoring self current_time memory_objects intent
        confidence None in
    Some (slice_to limit scored, self')
  else Some (slice_to limit memory_objects, self).

(** Intent analysis, routing and dispatch, as chained by
    [_unified_search_core]. *)
Definition retrieve_final_memories (self : TemporalIntelligence)
    (current_time : R) (query : string) (memory_objects : list Memory)
    (get_all : option (list Memory)) (limit : Z)
  : option (list Memory * TemporalIntelligence) :=
  let '((intent, confidence), self') :=
    analyze_intent self current_time query memory_objects in
  let '(strategy, strategy_params) :=
    route_query query memory_objects intent (PyFloat confidence) in
  execute_strategy self' current_time strategy strategy_params memory_objects
    get_all intent confidence limit.

(* ================================================================= *)
(** ** Facts about the primitives *)

Lemma Rleb_true (x y : R) : Rleb x y = true <-> x <= y.
Proof. unfold Rleb; destruct (Rle_dec x y); split; intros; try easy; lra. Qed.

Lemma Rleb_false (x y : R) : Rleb x y = false <-> y < x.
Proof. unfold Rleb; destruct (Rle_dec x y); split; intros; try easy; lra. Qed.

Lemma Rltb_true (x y : R) : Rltb x y = true <-> x < y.
Proof. unfold Rltb; destruct (Rlt_dec x y); split; intros; try easy; lra. Qed.

Lemma Rltb_false (x y : R) : Rltb x y = false <-> y <= x.
Proof. unfold Rltb; destruct (Rlt_dec x y); split; intros; try easy; lra. Qed.

Lemma Rgtb_true (x y : R) : Rgtb x y = true <-> y < x.
Proof. unfold Rgtb; destruct (Rgt_dec x y); split; intros; try easy; lra. Qed.

Lemma Rgtb_false (x y : R) : Rgtb x y = false <-> x <= y.
Proof. unfold Rgtb; destruct (Rgt_dec x y); split; intros; try easy; lra. Qed.

Lemma Rgeb_true (x y : R) : Rgeb x y = true <-> y <= x.
Proof. unfold Rgeb; destruct (Rge_dec x y); split; intros; try easy; lra. Qed.

Lemma Rgeb_false (x y : R) : Rgeb x y = false <-> x < y.
Proof. unfold Rgeb; destruct (Rge_dec x y); split; intros; try easy; lra. Qed.

Lemma Reqb_true (x y : R) : Reqb x y = true <-> x = y.
Proof. unfold Reqb; destruct (Req_dec_T x y); split; intros; try easy. Qed.

Lemma Reqb_false (x y : R) : Reqb x y = false <-> x <> y.
Proof. unfold Reqb; destruct (Req_dec_T x y); split; intros; try easy. Qed.

Lemma py_max_bounds (a b : R) : a <= py_max a b /\ b <= py_max a b.
Proof. unfold py_max; case_cmp; lra. Qed.

Lemma py_max_cases (a b : R) : py_max a b = a \/ py_max a b = b.
Proof. unfold py_max; case_cmp; auto. Qed.

Lemma py_min_bounds (a b : R) : py_min a b <= a /\ py_min a b <= b.
Proof. unfold py_min; case_cmp; lra. Qed.

Lemma py_min_cases (a b : R) : py_min a b = a \/ py_min a b = b.
Proof. unfold py_min; case_cmp; auto. Qed.

(* ================================================================= *)
(** ** Query routing *)

Lemma route_query_try_raises (query : string) (coll : list Memory)
    (intent : QueryIntent) (v : PyValue) :
  intent <> SEMANTIC_ONLY ->
  (forall x, v <> PyFloat x) ->
  route_query_try query coll intent v = None.
Proof.
  intros Hi Hv.
  destruct intent; try congruence;
    destruct v; try reflexivity; exfalso; eapply Hv; reflexivity.
Qed.

(** C4.  [route_query] follows the decision table: a primary intent with
    confidence above 0.8 goes to [timestamp_direct] (limit 5, no time
    filter); a primary intent with confidence at most 0.8 goes to the hybrid
    strategy with multiplier 3, the confidence as temporal weight and the
    fresh-memory boost; a secondary intent goes to the hybrid strategy with
    multiplier 2, half the confidence as weight and no boost; a semantic
    intent goes to [semantic_only] (limit 5, reranking).  Whenever the body
    raises (as it does for a confidence that is not a number under a
    temporal intent) the result is the [semantic_only] default. *)
Theorem route_query_decision_table (query : string) (coll : list Memory) :
  (forall c, c > 0.8 ->
     route_query query coll TEMPORAL_PRIMARY (PyFloat c)
     = ("timestamp_direct", TimestampDirectParams 5 None))
  /\ (forall c, c <= 0.8 ->
        route_query query coll TEMPORAL_PRIMARY (PyFloat c)
        = ("semantic_temporal_hybrid", HybridParams 3 (PyFloat c) true))
  /\ (forall c,
        route_query query coll TEMPORAL_SECONDARY (PyFloat c)
        = ("semantic_temporal_hybrid",
           HybridParams 2 (PyFloat (c * 0.5)) false))
  /\ (forall v,
        route_query query coll SEMANTIC_ONLY v
        = ("semantic_only", SemanticOnlyParams 5 true))
  /\ (forall intent v,
        route_query_try query coll intent v = None ->
        route_query query coll intent v
        = ("semantic_only", SemanticOnlyParams 5 true))
  /\ (forall intent v,
        intent <> SEMANTIC_ONLY -> (forall x, v <> PyFloat x) ->
        route_query query coll intent v
        = ("semantic_only", SemanticOnlyParams 5 true)).
Proof.
  refine (conj _ (conj _ (conj _ (conj _ (conj _ _))))).
  - intros c Hc. unfold route_query, route_query_try; simpl.
    case_cmp; [reflexivity | lra].
  - intros c Hc. unfold route_query, route_query_try; simpl.
    case_cmp; [lra | reflexivity].
  - intros c. reflexivity.
  - intros v. reflexivity.
  - intros intent v H. unfold route_query. rewrite H. reflexivity.
  - intros intent v Hi Hv. unfold route_query.
    rewrite route_query_try_raises by assumption. reflexivity.
Qed.

(* ================================================================= *)
(** ** Intent classification *)

Lemma sum_squares_nonneg (a : list R) : 0 <= Rsum (map (fun x => x * x) a).
Proof.
  induction a as [|x a IH]; simpl; [lra|].
  pose proof (Rle_0_sqr x) as Hx. unfold Rsqr in Hx. lra.
Qed.

Lemma np_norm_nonneg (a : embedding) : 0 <= np_norm a.
Proof. apply sqrt_pos. Qed.

(** Cauchy-Schwarz in two dimensions, on square roots. *)
Lemma cauchy_schwarz_step (x y A B : R) :
  0 <= A -> 0 <= B ->
  x * y + sqrt A * sqrt B <= sqrt (x * x + A) * sqrt (y * y + B).
Proof.
  intros HA HB.
  pose proof (sqrt_pos A) as Hs. pose proof (sqrt_pos B) as Ht.
  pose proof (sqrt_sqrt A HA) as Es. pose proof (sqrt_sqrt B HB) as Et.
  set (s := sqrt A) in *. set (t := sqrt B) in *.
  pose proof (Rle_0_sqr x) as Hx. pose proof (Rle_0_sqr y) as Hy.
  unfold Rsqr in Hx, Hy.
  rewrite <- sqrt_mult by lra.
  destruct (Rle_dec (x * y + s * t) 0) as [Hneg|Hpos].
  - apply Rle_trans with 0; [assumption | apply sqrt_pos].
  - rewrite <- (sqrt_square (x * y + s * t)) by lra.
    apply sqrt_le_1_alt.
    rewrite <- Es, <- Et.
    pose proof (Rle_0_sqr (x * t - y * s)) as Hsq. unfold Rsqr in Hsq.
    nra.
Qed.

(** Cauchy-Schwarz: the dot product is at most the product of the norms. *)
Lemma np_dot_le_norms (a b : embedding) (d : R) :
  np_dot a b = Some d -> d <= np_norm a * np_norm b.
Proof.
  revert b d. induction a as [|x a IH]; intros [|y b] d H; simpl in H;
    try discriminate.
  - injection H as <-. unfold np_norm; simpl. rewrite sqrt_0. lra.
  - destruct (np_dot a b) as [d'|] eqn:E; [|discriminate].
    injection H as <-.
    specialize (IH b d' E). unfold np_norm in *; simpl.
    pose proof (cauchy_schwarz_step x y _ _
                  (sum_squares_nonneg a) (sum_squares_nonneg b)).
    lra.
Qed.

Lemma update_max_similarity_bounds (m m' : R) (q p : embedding) :
  0 <= m <= 1 -> update_max_similarity m q p = Some m' -> 0 <= m' <= 1.
Proof.
  intros Hm H. unfold update_max_similarity in H.
  destruct (np_dot q p) as [d|] eqn:E; [|discriminate].
  apply np_dot_le_norms in E.
  destruct (Reqb (np_norm q * np_norm p) 0) eqn:Ez.
  - injection H as <-. exact Hm.
  - injection H as <-. apply Reqb_false in Ez.
    pose proof (np_norm_nonneg q) as Hq. pose proof (np_norm_nonneg p) as Hp.
    assert (Hden : 0 < np_norm q * np_norm p) by nra.
    assert (Hcos : d / (np_norm q * np_norm p) <= 1).
    { apply Rmult_le_reg_r with (np_norm q * np_norm p); [assumption|].
      unfold Rdiv. rewrite Rmult_assoc, Rinv_l by lra. lra. }
    pose proof (py_max_bounds m (d / (np_norm q * np_norm p))) as Hb.
    destruct (py_max_cases m (d / (np_norm q * np_norm p))) as [Ec|Ec];
      rewrite Ec in *; lra.
Qed.

Lemma similarity_loop_bounds (patterns : list string) :
  forall cache q m r,
    0 <= m <= 1 ->
    fst (similarity_loop cache q patterns m) = Some r -> 0 <= r <= 1.
Proof.
  induction patterns as [|pattern rest IH]; intros cache q m r Hm H; simpl in H.
  - injection H as <-. exact Hm.
  - destruct (cached_embedding cache pattern) as [[pe cache']|];
      [|discriminate].
    destruct (update_max_similarity m q pe) as [m'|] eqn:E; [|discriminate].
    eapply IH; [|exact H].
    eapply update_max_similarity_bounds; eassumption.
Qed.

Lemma semantic_temporal_detection_bounds (self : TemporalIntelligence)
    (query : string) :
  0 <= fst (_semantic_temporal_detection self query) <= 1.
Proof.
  unfold _semantic_temporal_detection.
  destruct (cached_embedding (_query_embeddings_cache self) query)
    as [[qe cache]|]; [|cbn [fst]; lra].
  destruct (similarity_loop cache qe semantic_patterns 0) as [[r|] cache']
    eqn:E; cbn [fst]; [|lra].
  apply (similarity_loop_bounds semantic_patterns cache qe 0 r); [lra|].
  rewrite E. reflexivity.
Qed.

Lemma np_count_le_length (cond : R -> bool) (l : list R) :
  (np_count cond l <= List.length l)%nat.
Proof. apply filter_length_le. Qed.

Lemma Rsum_nonneg (l : list R) : Forall (fun x => 0 <= x) l -> 0 <= Rsum l.
Proof. induction 1; simpl; lra. Qed.

Lemma np_var_nonneg (l : list R) : l <> [] -> 0 <= np_var l.
Proof.
  intros Hl. unfold np_var, np_mean. rewrite length_map.
  apply Rmult_le_pos.
  - apply Rsum_nonneg. apply Forall_forall. intros y Hy.
    apply in_map_iff in Hy. destruct Hy as (x & <- & _).
    pose proof (Rle_0_sqr (x - Rsum l / INR (List.length l))) as H.
    unfold Rsqr in H. exact H.
  - apply Rlt_le, Rinv_0_lt_compat, lt_0_INR.
    destruct l; [congruence | simpl; lia].
Qed.

Lemma ratio_bounds (k n : nat) :
  (k <= n)%nat -> (0 < n)%nat -> 0 <= INR k / INR n <= 1.
Proof.
  intros Hk Hn.
  assert (0 < INR n) by (apply lt_0_INR; exact Hn).
  assert (0 <= INR k) by apply pos_INR.
  assert (INR k <= INR n) by (apply le_INR; exact Hk).
  split.
  - apply Rmult_le_pos; [assumption|].
    apply Rlt_le, Rinv_0_lt_compat; assumption.
  - apply Rmult_le_reg_r with (INR n); [assumption|].
    unfold Rdiv. rewrite Rmult_assoc, Rinv_l by lra. lra.
Qed.

Lemma estimate_temporal_benefit_bounds (current_time : R) (query : string)
    (coll : list Memory) :
  0 <= _estimate_temporal_benefit current_time query coll <= 1.
Proof.
  unfold _estimate_temporal_benefit.
  destruct coll as [|m0 coll0]; [lra|].
  destruct (collect_ages current_time (m0 :: coll0)) as [|a ages]; [lra|].
  set (l := a :: ages).
  assert (Hlen : (0 < List.length l)%nat) by (simpl; lia).
  assert (Hrecent :
            0 <= INR (np_count (fun a0 => Rltb a0 24) l) / INR (List.length l)
            <= 1).
  { apply ratio_bounds; [apply np_count_le_length | exact Hlen]. }
  assert (Hvar : 0 <= (if (1 <? List.length l)%nat then np_var l else 0)).
  { destruct (1 <? List.length l)%nat; [|lra].
    apply np_var_nonneg. discriminate. }
  set (v := if (1 <? List.length l)%nat then np_var l else 0) in *.
  assert (Hfactor : 0 <= py_min (v / 1000) 1 <= 1).
  { pose proof (py_min_bounds (v / 1000) 1).
    destruct (py_min_cases (v / 1000) 1) as [E|E]; rewrite E in *; lra. }
  destruct (0 <? List.length l)%nat eqn:E0;
    [|apply Nat.ltb_ge in E0; lia].
  lra.
Qed.

Lemma matched_patterns_le (q : string) :
  (matched_patterns q <= List.length linguistic_patterns)%nat.
Proof. apply filter_length_le. Qed.

Lemma linguistic_temporal_analysis_bounds (query : string) :
  0 <= _linguistic_temporal_analysis query <= 1.
Proof.
  unfold _linguistic_temporal_analysis.
  set (q := strip (lower query)).
  assert (Hr : 0 <= INR (matched_patterns q)
                    / INR (List.length linguistic_patterns) <= 1).
  { apply ratio_bounds; [apply matched_patterns_le | simpl; lia]. }
  set (r := INR (matched_patterns q) / INR (List.length linguistic_patterns))
    in *.
  assert (Hc : 0 <= py_min r 1 <= 1).
  { pose proof (py_min_bounds r 1).
    destruct (py_min_cases r 1) as [E|E]; rewrite E in *; lra. }
  set (c := py_min r 1) in *.
  set (c' := if startswith _ q && _ then c + 0.2 else c).
  assert (Hc' : 0 <= c').
  { unfold c'. destruct (startswith _ q && _); lra. }
  pose proof (py_min_bounds c' 1).
  destruct (py_min_cases c' 1) as [E|E]; rewrite E in *; lra.
Qed.

(** In exact arithmetic the confidence returned by [analyze_intent] lies in
    [0,1], and so does each of its three sub-scores, for every query,
    collection, clock value, instance state and behaviour of the
    collaborators.  (The cosine bound is Cauchy-Schwarz; on binary64 the
    quotient can round above 1, see [Float64].) *)
Theorem analyze_intent_confidence_bounds (self : TemporalIntelligence)
    (current_time : R) (query : string) (coll : list Memory) :
  0 <= fst (_semantic_temporal_detection self query) <= 1
  /\ 0 <= _estimate_temporal_benefit current_time query coll <= 1
  /\ 0 <= _linguistic_temporal_analysis query <= 1
  /\ 0 <= snd (fst (analyze_intent self current_time query coll)) <= 1.
Proof.
  pose proof (semantic_temporal_detection_bounds self query) as Hs.
  pose proof (estimate_temporal_benefit_bounds current_time query coll) as Hb.
  pose proof (linguistic_temporal_analysis_bounds query) as Hl.
  refine (conj Hs (conj Hb (conj Hl _))).
  unfold analyze_intent.
  destruct (_semantic_temporal_detection self query) as [s self'].
  simpl in Hs.
  repeat case_cmp; simpl; lra.
Qed.

(** C6.  [analyze_intent] returns the combination of the three sub-scores
    with weights 0.4 (semantic patterns), 0.3 (statistical benefit) and 0.3
    (linguistic); the intent is [TEMPORAL_PRIMARY] exactly when the
    combination is at least 0.7, [TEMPORAL_SECONDARY] exactly when it is at
    least 0.3 and below 0.7, and [SEMANTIC_ONLY] exactly when it is below
    0.3.  Both lower bounds are closed. *)
Theorem analyze_intent_weights_and_thresholds (self : TemporalIntelligence)
    (current_time : R) (query : string) (coll : list Memory) :
  let combined :=
    fst (_semantic_temporal_detection self query) * 0.4
    + _estimate_temporal_benefit current_time query coll * 0.3
    + _linguistic_temporal_analysis query * 0.3 in
  let result := fst (analyze_intent self current_time query coll) in
  snd result = combined
  /\ (0.7 <= combined <-> fst result = TEMPORAL_PRIMARY)
  /\ (0.3 <= combined < 0.7 <-> fst result = TEMPORAL_SECONDARY)
  /\ (combined < 0.3 <-> fst result = SEMANTIC_ONLY).
Proof.
  unfold analyze_intent.
  destruct (_semantic_temporal_detection self query) as [s self'].
  cbv zeta. cbn [fst].
  set (combined := s * 0.4 + _ * 0.3 + _ * 0.3).
  destruct (Rgeb combined 0.7) eqn:E1;
    [apply Rgeb_true in E1 | apply Rgeb_false in E1].
  - cbn [fst snd]. split; [reflexivity|].
    repeat split; intros; try discriminate; try lra.
  - destruct (Rgeb combined 0.3) eqn:E2;
      [apply Rgeb_true in E2 | apply Rgeb_false in E2].
    + cbn [fst snd]. split; [reflexivity|].
      repeat split; intros; try discriminate; try lra.
    + cbn [fst snd]. split; [reflexivity|].
      repeat split; intros; try discriminate; try lra.
Qed.

(* ================================================================= *)
(** ** Temporal scoring *)

Lemma base_score_pos (age : R) (profile : TemporalProfile) :
  0 < base_score age profile.
Proof. apply exp_pos. Qed.

Lemma exp_nonpos_le_1 (x : R) : x <= 0 -> exp x <= 1.
Proof.
  intros [Hx| ->]; [|rewrite exp_0; lra].
  rewrite <- exp_0. apply Rlt_le, exp_increasing. exact Hx.
Qed.

Lemma decay_rate_pos (s : R) : 0 < s + 1 -> 0 < 1 / (s + 1).
Proof. intros H. apply Rdiv_lt_0_compat; lra. Qed.

(** The base score of a record that is not stamped in the future, under a
    profile whose deviation is non-negative, lies in (0,1]. *)
Lemma base_score_bounds (age : R) (profile : TemporalProfile) :
  0 <= age -> 0 <= std_age_hours profile ->
  0 < base_score age profile <= 1.
Proof.
  intros Ha Hs. split; [apply base_score_pos|].
  unfold base_score. apply exp_nonpos_le_1.
  pose proof (decay_rate_pos (std_age_hours profile) ltac:(lra)) as Hd.
  set (d := 1 / (std_age_hours profile + 1)) in *.
  assert (0 <= d * age) by (apply Rmult_le_pos; lra).
  lra.
Qed.

(** The base score does not increase with age when the decay rate is
    positive. *)
Lemma base_score_antitone (a1 a2 : R) (profile : TemporalProfile) :
  0 < std_age_hours profile + 1 -> a1 <= a2 ->
  base_score a2 profile <= base_score a1 profile.
Proof.
  intros Hs Ha. unfold base_score.
  pose proof (decay_rate_pos (std_age_hours profile) Hs) as Hd.
  set (d := 1 / (std_age_hours profile + 1)) in *.
  assert (Hle : - d * a2 / 24 <= - d * a1 / 24) by nra.
  destruct Hle as [Hlt|Heq].
  - apply Rlt_le, exp_increasing. exact Hlt.
  - rewrite Heq. lra.
Qed.

Lemma boost_cases (age : R) (profile : TemporalProfile) :
  boost age profile = 1.2 \/ boost age profile = 1.0
  \/ boost age profile = 0.8.
Proof. unfold boost; repeat case_cmp; auto. Qed.

(** The standard deviation a profile is built with is non-negative. *)
Lemma build_temporal_profile_std_nonneg (self : TemporalIntelligence)
    (current_time : R) (coll : list Memory) :
  0 <= std_age_hours (fst (build_temporal_profile self current_time coll)).
Proof.
  unfold build_temporal_profile.
  destruct (collect_ages current_time coll); simpl; [lra | apply sqrt_pos].
Qed.

(** C3.  A record stamped one day ahead of the clock has the age -24 hours;
    under the default profile its base score, before any boost, is already
    above 1, and so is its temporal score. *)
Theorem base_score_of_future_record_exceeds_one :
  let age := (1700000000 - 1700086400) / 3600 in
  age = -24
  /\ 1 < base_score age default_profile
  /\ 1 < _calculate_temporal_score age default_profile.
Proof.
  cbv zeta.
  replace ((1700000000 - 1700086400) / 3600) with (-24) by lra.
  assert (Hbase : 1 < base_score (-24) default_profile).
  { unfold base_score, default_profile. simpl.
    replace (- (1 / (12 + 1)) * -24 / 24) with (1 / 13) by lra.
    rewrite <- exp_0 at 1. apply exp_increasing. lra. }
  refine (conj eq_refl (conj Hbase _)).
  unfold _calculate_temporal_score, boost, default_profile in *. simpl in *.
  repeat case_cmp; lra.
Qed.

(** Within one boost bracket the score does not grow with age, as long as
    the decay rate is not negative. *)
Lemma temporal_score_monotone_of_deviation (profile : TemporalProfile)
    (a1 a2 : R) :
  -1 <= std_age_hours profile ->
  a1 < a2 ->
  (a1 <= recent_threshold_hours profile
   /\ a2 <= recent_threshold_hours profile)
  \/ (recent_threshold_hours profile < a1 <= old_threshold_hours profile
      /\ recent_threshold_hours profile < a2 <= old_threshold_hours profile)
  \/ (old_threshold_hours profile < a1 /\ old_threshold_hours profile < a2) ->
  _calculate_temporal_score a2 profile <= _calculate_temporal_score a1 profile.
Proof.
  intros Hs Ha Hbracket. unfold _calculate_temporal_score.
  case_cmp; [lra|].
  assert (Hpos : 0 < std_age_hours profile + 1) by lra.
  pose proof (base_score_antitone a1 a2 profile Hpos ltac:(lra)) as Hbase.
  pose proof (base_score_pos a1 profile) as H1.
  pose proof (base_score_pos a2 profile) as H2.
  set (b1 := base_score a1 profile) in *.
  set (b2 := base_score a2 profile) in *.
  unfold boost.
  destruct Hbracket as [[Hr1 Hr2] | [[Hm1 Hm2] | [Ho1 Ho2]]];
    repeat case_cmp; try lra.
Qed.

(** C7.  Under a fixed profile, of two ages [a1 < a2] in the same boost
    bracket -- both at most the recent threshold, both in the medium
    bracket, or both above the old threshold -- the younger one has a
    temporal score at least as large as the older one.  This holds for
    every profile [build_temporal_profile] returns, whatever the instance,
    the clock and the collection, and for every profile whose deviation is
    at least -1, which a standard deviation always is. *)
Theorem temporal_score_monotone_within_bracket (a1 a2 : R) :
  a1 < a2 ->
  let same_bracket (profile : TemporalProfile) :=
    (a1 <= recent_threshold_hours profile
     /\ a2 <= recent_threshold_hours profile)
    \/ (recent_threshold_hours profile < a1 <= old_threshold_hours profile
        /\ recent_threshold_hours profile < a2
            <= old_threshold_hours profile)
    \/ (old_threshold_hours profile < a1
        /\ old_threshold_hours profile < a2) in
  let monotone (profile : TemporalProfile) :=
    _calculate_temporal_score a2 profile
    <= _calculate_temporal_score a1 profile in
  (forall self current_time coll,
     let profile := fst (build_temporal_profile self current_time coll) in
     same_bracket profile -> monotone profile)
  /\ (forall profile,
        -1 <= std_age_hours profile -> same_bracket profile ->
        monotone profile).
Proof.
  intros Ha same_bracket monotone. split.
  - intros self current_time coll profile Hb.
    apply temporal_score_monotone_of_deviation; [|exact Ha | exact Hb].
    pose proof (build_temporal_profile_std_nonneg self current_time coll).
    fold profile in H. lra.
  - intros profile Hs Hb.
    apply temporal_score_monotone_of_deviation; assumption.
Qed.

(* ================================================================= *)
(** ** The stable descending sort *)

Section SortDesc.

Context {A : Type} (key : A -> R).

Lemma insert_desc_perm (x : A) (l : list A) :
  Permutation (insert_desc key x l) (x :: l).
Proof.
  induction l as [|y l IH]; simpl; [reflexivity|].
  destruct (Rgeb (key x) (key y)); [reflexivity|].
  rewrite IH. apply perm_swap.
Qed.

Lemma sort_desc_perm (l : list A) : Permutation (sort_desc key l) l.
Proof.
  induction l as [|x l IH]; simpl; [reflexivity|].
  rewrite insert_desc_perm. apply perm_skip, IH.
Qed.

Lemma sort_desc_length (l : list A) :
  List.length (sort_desc key l) = List.length l.
Proof. apply Permutation_length, sort_desc_perm. Qed.

Lemma sort_desc_in (l : list A) (x : A) : In x (sort_desc key l) <-> In x l.
Proof.
  split; apply Permutation_in;
    [apply sort_desc_perm | symmetry; apply sort_desc_perm].
Qed.

Lemma insert_desc_sorted (x : A) (l : list A) :
  StronglySorted (desc key) l ->
  StronglySorted (desc key) (insert_desc key x l).
Proof.
  induction 1 as [|y l Hs IH Hy]; simpl.
  - constructor; constructor.
  - destruct (Rgeb (key x) (key y)) eqn:E.
    + apply Rgeb_true in E.
      constructor; [constructor; assumption|].
      constructor; [exact E|].
      eapply Forall_impl; [|exact Hy]. unfold desc. intros; lra.
    + apply Rgeb_false in E.
      constructor; [exact IH|].
      eapply Permutation_Forall; [symmetry; apply insert_desc_perm|].
      constructor; [unfold desc; lra | exact Hy].
Qed.

Lemma sort_desc_sorted (l : list A) :
  StronglySorted (desc key) (sort_desc key l).
Proof.
  induction l as [|x l IH]; simpl; [constructor|].
  apply insert_desc_sorted, IH.
Qed.



End SortDesc.

(* ================================================================= *)
(** ** Adaptive temporal scoring *)

Lemma score_memory_undated (current_time : R) (intent : QueryIntent)
    (confidence : R) (profile : TemporalProfile) (m : Memory) :
  parse_timestamp (get_created_at m) = None ->
  temporal_score (score_memory current_time intent confidence profile m)
  = Some (get_score m).
Proof.
  intros H. unfold score_memory, final_score. simpl. rewrite H. reflexivity.
Qed.

Lemma adaptive_temporal_scoring_temporal (self : TemporalIntelligence)
    (current_time : R) (ms : list Memory) (intent : QueryIntent)
    (confidence : R) (profile : option TemporalProfile) :
  intent <> SEMANTIC_ONLY ->
  fst (adaptive_temporal_scoring self current_time ms intent confidence
         profile)
  = sort_desc get_temporal_score
      (map (score_memory current_time intent confidence
              (fst (resolve_profile self current_time ms profile))) ms).
Proof.
  intros Hi. unfold adaptive_temporal_scoring.
  destruct (QueryIntent_eqb intent SEMANTIC_ONLY) eqn:E.
  - destruct intent; try discriminate. congruence.
  - destruct (resolve_profile self current_time ms profile) as [p self'].
    reflexivity.
Qed.

Lemma adaptive_temporal_scoring_semantic (self : TemporalIntelligence)
    (current_time : R) (ms : list Memory) (confidence : R)
    (profile : option TemporalProfile) :
  adaptive_temporal_scoring self current_time ms SEMANTIC_ONLY confidence
    profile = (ms, self).
Proof. reflexivity. Qed.

(** C8.  Under a temporal intent, a record whose [created_at] is missing or
    unparseable comes out of the scorer with a final score equal to its
    semantic score (and every such record of the output carries exactly its
    semantic score); under [SEMANTIC_ONLY] the input list is returned as it
    is and the instance is left untouched. *)
Theorem undated_record_scores_semantic (self : TemporalIntelligence)
    (current_time : R) (ms : list Memory) (intent : QueryIntent)
    (confidence : R) (profile : option TemporalProfile) :
  (intent <> SEMANTIC_ONLY ->
   let out :=
     fst (adaptive_temporal_scoring self current_time ms intent confidence
            profile) in
   (forall m, In m ms -> parse_timestamp (get_created_at m) = None ->
      exists m', In m' out
                 /\ mem_id m' = mem_id m /\ memory m' = memory m
                 /\ created_at m' = created_at m /\ score m' = score m
                 /\ temporal_score m' = Some (get_score m)
                 /\ original_semantic_score m' = Some (get_score m))
   /\ (forall m', In m' out ->
         parse_timestamp (get_created_at m') = None ->
         temporal_score m' = Some (get_score m')))
  /\ adaptive_temporal_scoring self current_time ms SEMANTIC_ONLY confidence
       profile = (ms, self).
Proof.
  split; [|apply adaptive_temporal_scoring_semantic].
  intros Hi out. subst out.
  rewrite adaptive_temporal_scoring_temporal by exact Hi.
  set (p := fst (resolve_profile self current_time ms profile)).
  split.
  - intros m Hin Hnone.
    exists (score_memory current_time intent confidence p m).
    split.
    + apply sort_desc_in, in_map, Hin.
    + repeat split; try reflexivity.
      apply score_memory_undated, Hnone.
  - intros m' Hin Hnone.
    apply sort_desc_in, in_map_iff in Hin. destruct Hin as (m & <- & Hm).
    exact (score_memory_undated current_time intent confidence p m Hnone).
Qed.


(* ================================================================= *)
(** ** Timestamp retrieval *)

Lemma in_firstn {A : Type} (n : nat) (l : list A) (x : A) :
  In x (firstn n l) -> In x l.
Proof.
  revert l. induction n as [|n IH]; intros [|y l]; simpl; try contradiction.
  intros [H|H]; [left; exact H | right; apply IH, H].
Qed.

Lemma slice_to_incl {A : Type} (limit : Z) (l : list A) (x : A) :
  In x (slice_to limit l) -> In x l.
Proof.
  unfold slice_to. destruct (0 <=? limit)%Z; apply in_firstn.
Qed.

Lemma slice_to_length {A : Type} (limit : Z) (l : list A) :
  (0 <= limit)%Z -> (Z.of_nat (List.length (slice_to limit l)) <= limit)%Z.
Proof.
  intros H. unfold slice_to.
  destruct (0 <=? limit)%Z eqn:E; [|apply Z.leb_gt in E; lia].
  pose proof (firstn_le_length (Z.to_nat limit) l). rewrite length_firstn. lia.
Qed.

Lemma firstn_sorted {A : Type} (rel : A -> A -> Prop) (n : nat) (l : list A) :
  StronglySorted rel l -> StronglySorted rel (firstn n l).
Proof.
  intros H. revert n. induction H as [|x l Hs IH Hx]; intros [|n]; simpl;
    try constructor.
  - apply IH.
  - apply Forall_forall. intros y Hy. apply in_firstn in Hy.
    revert y Hy. apply Forall_forall. exact Hx.
Qed.

Lemma slice_to_sorted {A : Type} (rel : A -> A -> Prop) (limit : Z)
    (l : list A) :
  StronglySorted rel l -> StronglySorted rel (slice_to limit l).
Proof.
  intros H. unfold slice_to. destruct (0 <=? limit)%Z; apply firstn_sorted, H.
Qed.

Lemma map_key_sorted {A : Type} (key : A -> R) (l : list A) :
  StronglySorted (desc key) l ->
  StronglySorted (fun t u => u <= t) (map key l).
Proof.
  induction 1 as [|x l Hs IH Hx]; simpl; constructor; [exact IH|].
  apply Forall_forall. intros t Ht. apply in_map_iff in Ht.
  destruct Ht as (y & <- & Hy).
  revert y Hy. apply Forall_forall. exact Hx.
Qed.

(** What the loop stores for a record it keeps. *)
Lemma timestamped_memories_spec (current_time : R) (tf : option R)
    (coll : list Memory) (m : Memory) :
  In m (timestamped_memories current_time tf coll) ->
  exists m0 ts,
    In m0 coll
    /\ parse_timestamp (get_created_at m0) = Some ts
    /\ mem_id m = mem_id m0 /\ memory m = memory m0
    /\ created_at m = created_at m0 /\ score m = score m0
    /\ sort_timestamp m = Some ts
    /\ age_hours m = Some ((current_time - ts) / 3600)
    /\ (forall h, tf = Some h -> (current_time - ts) / 3600 <= h).
Proof.
  induction coll as [|m0 coll IH]; simpl; [contradiction|].
  assert (Hrest :
            In m (timestamped_memories current_time tf coll) ->
            exists m1 ts,
              In m1 (m0 :: coll)
              /\ parse_timestamp (get_created_at m1) = Some ts
              /\ mem_id m = mem_id m1 /\ memory m = memory m1
              /\ created_at m = created_at m1 /\ score m = score m1
              /\ sort_timestamp m = Some ts
              /\ age_hours m = Some ((current_time - ts) / 3600)
              /\ (forall h, tf = Some h -> (current_time - ts) / 3600 <= h)).
  { intros H. destruct (IH H) as (m1 & ts & Hin & Hrest).
    exists m1, ts. split; [right; exact Hin | exact Hrest]. }
  destruct (parse_timestamp (get_created_at m0)) as [ts|] eqn:Ep;
    [|exact Hrest].
  destruct (match tf with
            | Some h => Rgtb ((current_time - ts) / 3600) h
            | None => false
            end) eqn:Eold; [exact Hrest|].
  intros [<-|H]; [|exact (Hrest H)].
  exists m0, ts. simpl. repeat split; auto.
  intros h ->. apply Rgtb_false in Eold. exact Eold.
Qed.

Lemma get_memories_by_timestamp_in (current_time : R) (coll : list Memory)
    (limit : Z) (tf : option R) (m : Memory) :
  In m (get_memories_by_timestamp current_time coll limit tf) ->
  exists m0 ts,
    In m0 coll
    /\ parse_timestamp (get_created_at m0) = Some ts
    /\ mem_id m = mem_id m0 /\ memory m = memory m0
    /\ created_at m = created_at m0 /\ score m = score m0
    /\ age_hours m = Some ((current_time - ts) / 3600)
    /\ (forall h, tf = Some h -> (current_time - ts) / 3600 <= h).
Proof.
  unfold get_memories_by_timestamp. intros H.
  apply in_map_iff in H. destruct H as (m1 & <- & H).
  apply slice_to_incl, sort_desc_in, timestamped_memories_spec in H.
  destruct H as (m0 & ts & Hin & Hp & Hid & Hmem & Hc & Hs & _ & Ha & Hf).
  exists m0, ts. simpl. repeat split; auto.
Qed.

(** C9, as amended.  [get_memories_by_timestamp] returns only records of
    the collection whose timestamp parses and whose age in hours is at most
    [time_filter_hours] when a filter is given, and the result is in
    descending order of the parsed timestamps, whatever the limit; for a
    limit that is not negative the result has at most [limit] records. *)
Theorem get_memories_by_timestamp_filtered_sorted_limited
    (current_time : R) (coll : list Memory) (limit : Z) (tf : option R) :
  let out := get_memories_by_timestamp current_time coll limit tf in
  (forall m, In m out ->
     exists m0 ts,
       In m0 coll /\ mem_id m = mem_id m0 /\ created_at m = created_at m0
       /\ parse_timestamp (get_created_at m) = Some ts
       /\ age_hours m = Some ((current_time - ts) / 3600)
       /\ (forall h, tf = Some h -> (current_time - ts) / 3600 <= h))
  /\ (exists stamps,
        map (fun m => parse_timestamp (get_created_at m)) out
        = map Some stamps
        /\ StronglySorted (fun t u => u <= t) stamps)
  /\ ((0 <= limit)%Z -> (Z.of_nat (List.length out) <= limit)%Z).
Proof.
  intros out. split; [|split].
  - intros m Hm. apply get_memories_by_timestamp_in in Hm.
    destruct Hm as (m0 & ts & Hin & Hp & Hid & _ & Hc & _ & Ha & Hf).
    exists m0, ts. repeat split; auto.
    unfold get_created_at in *. rewrite Hc. exact Hp.
  - subst out. unfold get_memories_by_timestamp.
    set (sorted :=
           sort_desc get_sort_timestamp
             (timestamped_memories current_time tf coll)).
    exists (map get_sort_timestamp (slice_to limit sorted)). split.
    + rewrite !map_map. apply map_ext_in. intros m Hm.
      apply slice_to_incl, sort_desc_in, timestamped_memories_spec in Hm.
      destruct Hm as (m0 & ts & _ & Hp & _ & _ & Hc & _ & Hs & _).
      unfold get_sort_timestamp. rewrite Hs.
      unfold get_created_at in *. simpl. rewrite Hc. exact Hp.
    + apply map_key_sorted, slice_to_sorted, sort_desc_sorted.
  - intros Hlimit. subst out. unfold get_memories_by_timestamp.
    rewrite length_map. apply slice_to_length, Hlimit.
Qed.

(** C2, as amended.  Adaptive temporal scoring never drops a record: its
    output is as long as its input, and a record whose [created_at] is
    missing or unparseable is in it, ranked by its semantic score alone
    under a temporal intent and untouched under [SEMANTIC_ONLY].
    Timestamp-direct retrieval keeps no such record: whatever it returns
    has a [created_at] that parses. *)
Theorem undated_record_kept_by_scorer_dropped_by_timestamp_retrieval
    (self : TemporalIntelligence) (current_time : R) (ms : list Memory)
    (intent : QueryIntent) (confidence : R)
    (profile : option TemporalProfile) (limit : Z) (tf : option R) :
  let scored :=
    fst (adaptive_temporal_scoring self current_time ms intent confidence
           profile) in
  List.length scored = List.length ms
  /\ (forall m, In m ms -> parse_timestamp (get_created_at m) = None ->
        exists m', In m' scored
                   /\ mem_id m' = mem_id m /\ memory m' = memory m
                   /\ created_at m' = created_at m /\ score m' = score m
                   /\ (intent <> SEMANTIC_ONLY ->
                       temporal_score m' = Some (get_score m))
                   /\ (intent = SEMANTIC_ONLY -> m' = m))
  /\ (forall m', In m' (get_memories_by_timestamp current_time ms limit tf) ->
        parse_timestamp (get_created_at m') <> None).
Proof.
  intros scored. split; [|split].
  - subst scored. destruct intent;
      try (rewrite adaptive_temporal_scoring_temporal by discriminate;
           rewrite sort_desc_length, length_map; reflexivity).
    reflexivity.
  - intros m Hin Hnone. subst scored.
    destruct (QueryIntent_eqb intent SEMANTIC_ONLY) eqn:E.
    + destruct intent; try discriminate.
      exists m. repeat split; auto. congruence.
    + assert (Hi : intent <> SEMANTIC_ONLY) by (intros ->; discriminate).
      rewrite adaptive_temporal_scoring_temporal by exact Hi.
      set (p := fst (resolve_profile self current_time ms profile)).
      exists (score_memory current_time intent confidence p m).
      split; [apply sort_desc_in, in_map, Hin|].
      repeat split; try reflexivity; try contradiction.
      intros _. apply score_memory_undated, Hnone.
  - intros m' Hm'. apply get_memories_by_timestamp_in in Hm'.
    destruct Hm' as (m0 & ts & _ & Hp & _ & _ & Hc & _).
    unfold get_created_at in *. rewrite Hc, Hp. discriminate.
Qed.

(* ================================================================= *)
(** ** Temporal profile *)

Lemma parse_timestamp_float (x : R) :
  x <> 0 -> parse_timestamp (PyFloat x) = Some x.
Proof.
  intros Hx. unfold parse_timestamp, truthy. case_cmp; [lra | reflexivity].
Qed.

Lemma parse_timestamp_absent (m : Memory) :
  created_at m = None -> parse_timestamp (get_created_at m) = None.
Proof. intros H. unfold get_created_at. rewrite H. reflexivity. Qed.

(** A collection without a single parseable timestamp gets the default
    profile, and the instance keeps its state. *)
Lemma build_temporal_profile_no_ages (self : TemporalIntelligence)
    (current_time : R) (coll : list Memory) :
  collect_ages current_time coll = [] ->
  build_temporal_profile self current_time coll = (default_profile, self).
Proof. intros H. unfold build_temporal_profile. rewrite H. reflexivity. Qed.

(** When the thresholds are in order the three buckets partition the ages. *)
Lemma bucket_counts_partition (rt ot : R) (ages : list R) :
  rt <= ot ->
  (np_count (fun a => Rleb a rt) ages
   + np_count (fun a => Rgtb a rt && Rleb a ot) ages
   + np_count (fun a => Rgtb a ot) ages
   = List.length ages)%nat.
Proof.
  intros Hle. unfold np_count.
  induction ages as [|a ages IH]; [reflexivity|].
  cbn [filter].
  repeat case_cmp; cbn [andb List.length]; try lra; lia.
Qed.

(** The fractions of a profile sum to one as long as the clamped thresholds
    do not cross. *)
Lemma distribution_sums_to_one (ages : list R) :
  ages <> [] ->
  recent_threshold_hours (profile_of_ages ages)
  <= old_threshold_hours (profile_of_ages ages) ->
  let d := temporal_distribution (profile_of_ages ages) in
  recent d + medium d + old d = 1.
Proof.
  intros Hne Hle. cbn -[np_count np_percentile] in *.
  pose proof (bucket_counts_partition _ _ ages Hle) as Hsum.
  apply (f_equal INR) in Hsum. rewrite !plus_INR in Hsum.
  assert (Hn : 0 < INR (List.length ages)).
  { apply lt_0_INR. destruct ages; [congruence | simpl; lia]. }
  field_simplify_eq; [|lra]. lra.
Qed.

(** A single age beyond a week lies in the recent bucket (the recent
    threshold is that very age) and in the old bucket (the old threshold is
    capped at 168 hours). *)
Lemma single_stale_age_in_two_buckets (a : R) :
  168 < a ->
  let p := profile_of_ages [a] in
  recent_threshold_hours p = a
  /\ old_threshold_hours p = 168
  /\ recent (temporal_distribution p) = 1
  /\ medium (temporal_distribution p) = 0
  /\ old (temporal_distribution p) = 1.
Proof.
  intros Ha.
  assert (Hp : forall q, np_percentile [a] q = a).
  { intros q. unfold np_percentile. simpl. lra. }
  assert (Hrt : py_max 1 a = a) by (unfold py_max; case_cmp; lra).
  assert (Hot : py_min 168 a = 168) by (unfold py_min; case_cmp; lra).
  unfold profile_of_ages. cbn -[np_percentile np_count].
  rewrite !Hp, Hrt, Hot. unfold np_count. cbn [filter].
  repeat split; repeat case_cmp; simpl; lra.
Qed.

(* ================================================================= *)
(** ** More on temporal scoring *)

Lemma boost_antitone (a1 a2 : R) (profile : TemporalProfile) :
  a1 <= a2 -> boost a2 profile <= boost a1 profile.
Proof. intros Ha. unfold boost. repeat case_cmp; lra. Qed.

Lemma boost_bounds (age : R) (profile : TemporalProfile) :
  0.8 <= boost age profile <= 1.2.
Proof. unfold boost. repeat case_cmp; lra. Qed.

(** X1.  Under a profile whose deviation is at least -1, a younger record
    never has a lower temporal score than an older one, whatever brackets
    the two ages fall in and however the two thresholds are ordered. *)
Theorem temporal_score_never_rewards_age (profile : TemporalProfile)
    (a1 a2 : R) :
  -1 <= std_age_hours profile ->
  a1 <= a2 ->
  _calculate_temporal_score a2 profile <= _calculate_temporal_score a1 profile.
Proof.
  intros Hs Ha. unfold _calculate_temporal_score.
  case_cmp; [lra|].
  assert (Hpos : 0 < std_age_hours profile + 1) by lra.
  pose proof (base_score_antitone a1 a2 profile Hpos Ha) as Hbase.
  pose proof (base_score_pos a2 profile) as H2.
  pose proof (boost_antitone a1 a2 profile Ha) as Hboost.
  pose proof (boost_bounds a1 profile) as Hb1.
  pose proof (boost_bounds a2 profile) as Hb2.
  apply Rmult_le_compat; lra.
Qed.

(** X2.  The temporal score is never negative; for a record that is not
    stamped in the future, under a profile with a non-negative deviation,
    it is at most the boost of its bracket and so at most 1.2. *)
Theorem temporal_score_bounds (profile : TemporalProfile) (age : R) :
  0 <= _calculate_temporal_score age profile
  /\ (0 <= age -> 0 <= std_age_hours profile ->
      _calculate_temporal_score age profile <= boost age profile <= 1.2).
Proof.
  pose proof (boost_bounds age profile) as Hb.
  pose proof (base_score_pos age profile) as Hp.
  split.
  - unfold _calculate_temporal_score. case_cmp; [lra|].
    apply Rmult_le_pos; lra.
  - intros Ha Hs. split; [|lra].
    pose proof (base_score_bounds age profile Ha Hs) as [_ Hle].
    unfold _calculate_temporal_score. case_cmp; [lra|]. nra.
Qed.

Lemma final_score_dated (current_time : R) (intent : QueryIntent)
    (confidence : R) (profile : TemporalProfile) (m : Memory) (ts : R) :
  parse_timestamp (get_created_at m) = Some ts ->
  let t := _calculate_temporal_score ((current_time - ts) / 3600) profile in
  final_score current_time intent confidence profile m
  = if QueryIntent_eqb intent TEMPORAL_PRIMARY
    then t * confidence + get_score m * (1 - confidence)
    else get_score m * (1 - confidence * 0.5) + t * (confidence * 0.5).
Proof. intros H. unfold final_score. rewrite H. reflexivity. Qed.

(** X3.  Under a temporal intent and a confidence in [0,1], the score
    assigned to a record with a parseable timestamp lies between its
    semantic score and its temporal score; under [TEMPORAL_SECONDARY] it
    moves at most half of the way from the semantic towards the temporal
    score. *)
Theorem fused_score_between_components (self : TemporalIntelligence)
    (current_time : R) (ms : list Memory) (intent : QueryIntent)
    (confidence : R) (profile : option TemporalProfile) (m : Memory)
    (ts : R) :
  intent <> SEMANTIC_ONLY ->
  0 <= confidence <= 1 ->
  In m ms ->
  parse_timestamp (get_created_at m) = Some ts ->
  let out :=
    fst (adaptive_temporal_scoring self current_time ms intent confidence
           profile) in
  let t :=
    _calculate_temporal_score ((current_time - ts) / 3600)
      (fst (resolve_profile self current_time ms profile)) in
  let s := get_score m in
  exists m' f,
    In m' out /\ mem_id m' = mem_id m /\ temporal_score m' = Some f
    /\ Rmin s t <= f <= Rmax s t
    /\ (intent = TEMPORAL_SECONDARY -> Rabs (f - s) <= Rabs (t - s) / 2).
Proof.
  intros Hi Hc Hin Hp out t s. subst out.
  rewrite adaptive_temporal_scoring_temporal by exact Hi.
  set (p := fst (resolve_profile self current_time ms profile)) in *.
  exists (score_memory current_time intent confidence p m),
         (final_score current_time intent confidence p m).
  split; [apply sort_desc_in, in_map, Hin|].
  split; [reflexivity|]. split; [reflexivity|].
  rewrite (final_score_dated current_time intent confidence p m ts Hp).
  cbv zeta. fold t. fold s.
  unfold Rmin, Rmax.
  destruct (Rle_dec s t) as [Hst|Hst];
    destruct intent; try congruence; simpl; split;
    try (intros; discriminate); try nra;
    intros _; unfold Rabs;
    repeat match goal with
           | |- context [Rcase_abs ?x] => destruct (Rcase_abs x)
           end; nra.
Qed.

(** X4.  Under a temporal intent the scorer returns the input records, each
    exactly once, with [id], [memory], [created_at], [score] and
    [sort_timestamp] untouched; every returned record carries a
    [temporal_score], and its [original_semantic_score] is the input's
    semantic score (0 when the record had none). *)
Theorem adaptive_scoring_decorates_every_record (self : TemporalIntelligence)
    (current_time : R) (ms : list Memory) (intent : QueryIntent)
    (confidence : R) (profile : option TemporalProfile) :
  intent <> SEMANTIC_ONLY ->
  let out :=
    fst (adaptive_temporal_scoring self current_time ms intent confidence
           profile) in
  let core (m : Memory) :=
    (mem_id m, memory m, created_at m, score m, sort_timestamp m) in
  Permutation (map core out) (map core ms)
  /\ (forall m', In m' out ->
        temporal_score m' <> None
        /\ original_semantic_score m' = Some (get_score m')).
Proof.
  intros Hi out core. subst out.
  rewrite adaptive_temporal_scoring_temporal by exact Hi.
  set (p := fst (resolve_profile self current_time ms profile)).
  split.
  - rewrite (Permutation_map core (sort_desc_perm get_temporal_score _)).
    rewrite map_map. reflexivity.
  - intros m' Hm'. apply sort_desc_in, in_map_iff in Hm'.
    destruct Hm' as (m & <- & _). split; [discriminate | reflexivity].
Qed.

Lemma score_memory_idempotent (current_time : R) (intent : QueryIntent)
    (confidence : R) (profile : TemporalProfile) (m : Memory) :
  score_memory current_time intent confidence profile
    (score_memory current_time intent confidence profile m)
  = score_memory current_time intent confidence profile m.
Proof.
  unfold score_memory at 1 3.
  change (get_created_at
            (score_memory current_time intent confidence profile m))
    with (get_created_at m).
  change (final_score current_time intent confidence profile
            (score_memory current_time intent confidence profile m))
    with (final_score current_time intent confidence profile m).
  cbn [mem_id memory created_at score sort_timestamp age_hours score_memory
       get_score].
  f_equal.
  destruct (parse_timestamp (get_created_at m)) as [ts|]; [|reflexivity].
  destruct (Reqb ts 0); reflexivity.
Qed.

Lemma sort_desc_of_sorted {A : Type} (key : A -> R) (l : list A) :
  StronglySorted (desc key) l -> sort_desc key l = l.
Proof.
  induction 1 as [|x l Hs IH Hx]; [reflexivity|].
  simpl. rewrite IH. destruct l as [|y l]; [reflexivity|].
  simpl. inversion Hx as [|? ? Hxy _]; subst.
  unfold desc in Hxy. apply Rgeb_true in Hxy. rewrite Hxy. reflexivity.
Qed.

(** X5.  With an explicit profile, scoring an already scored list again (same
    clock, intent and confidence) changes nothing: the scorer is idempotent
    and leaves the instance as it is. *)
Theorem adaptive_scoring_idempotent (self : TemporalIntelligence)
    (current_time : R) (ms : list Memory) (intent : QueryIntent)
    (confidence : R) (p : TemporalProfile) :
  let once :=
    adaptive_temporal_scoring self current_time ms intent confidence
      (Some p) in
  adaptive_temporal_scoring self current_time (fst once) intent confidence
    (Some p) = once.
Proof.
  cbv zeta. unfold adaptive_temporal_scoring.
  destruct (QueryIntent_eqb intent SEMANTIC_ONLY); [reflexivity|].
  cbn [resolve_profile fst].
  set (f := score_memory current_time intent confidence p).
  set (sorted := sort_desc get_temporal_score (map f ms)).
  assert (Hfix : map f sorted = sorted).
  { rewrite <- (map_id sorted) at 2. apply map_ext_in.
    intros m Hm. apply sort_desc_in, in_map_iff in Hm.
    destruct Hm as (m0 & <- & _). apply score_memory_idempotent. }
  rewrite Hfix.
  rewrite (sort_desc_of_sorted get_temporal_score sorted)
    by apply sort_desc_sorted.
  reflexivity.
Qed.

(** X6.  A profile built from a collection with at least one parseable
    timestamp is stored in the instance, and a later scoring call without an
    explicit profile uses that stored profile, for whatever list and at
    whatever time it is called, and does not rebuild it. *)
Theorem stored_profile_is_reused (self : TemporalIntelligence)
    (build_time score_time : R) (coll ms : list Memory)
    (intent : QueryIntent) (confidence : R) :
  collect_ages build_time coll <> [] ->
  intent <> SEMANTIC_ONLY ->
  let built := build_temporal_profile self build_time coll in
  _profile (snd built) = Some (fst built)
  /\ adaptive_temporal_scoring (snd built) score_time ms intent confidence
       None
     = (sort_desc get_temporal_score
          (map (score_memory score_time intent confidence (fst built)) ms),
        snd built).
Proof.
  intros Hages Hi. cbv zeta.
  unfold build_temporal_profile.
  destruct (collect_ages build_time coll) as [|a ages]; [congruence|].
  cbn [fst snd _profile]. split; [reflexivity|].
  unfold adaptive_temporal_scoring.
  destruct intent; try congruence; reflexivity.
Qed.

(* ================================================================= *)
(** ** More on the temporal profile *)

Lemma insert_asc_perm (x : R) (l : list R) :
  Permutation (insert_asc x l) (x :: l).
Proof.
  induction l as [|y l IH]; simpl; [reflexivity|].
  destruct (Rleb x y); [reflexivity|].
  rewrite IH. apply perm_swap.
Qed.

Lemma np_sort_perm (l : list R) : Permutation (np_sort l) l.
Proof.
  induction l as [|x l IH]; simpl; [reflexivity|].
  rewrite insert_asc_perm. apply perm_skip, IH.
Qed.

Lemma np_sort_length (l : list R) : List.length (np_sort l) = List.length l.
Proof. apply Permutation_length, np_sort_perm. Qed.

Lemma insert_asc_sorted (x : R) (l : list R) :
  StronglySorted Rle l -> StronglySorted Rle (insert_asc x l).
Proof.
  induction 1 as [|y l Hs IH Hy]; simpl.
  - constructor; constructor.
  - destruct (Rleb x y) eqn:E.
    + apply Rleb_true in E.
      constructor; [constructor; assumption|].
      constructor; [exact E|].
      eapply Forall_impl; [|exact Hy]. intros; lra.
    + apply Rleb_false in E.
      constructor; [exact IH|].
      eapply Permutation_Forall; [symmetry; apply insert_asc_perm|].
      constructor; [lra | exact Hy].
Qed.

Lemma np_sort_sorted (l : list R) : StronglySorted Rle (np_sort l).
Proof.
  induction l as [|x l IH]; simpl; [constructor|].
  apply insert_asc_sorted, IH.
Qed.

Lemma sorted_nth_le (s : list R) :
  StronglySorted Rle s ->
  forall i j, (i <= j < List.length s)%nat -> nth i s 0 <= nth j s 0.
Proof.
  induction 1 as [|x s Hs IH Hx]; intros i j Hij; simpl in Hij; [lia|].
  destruct i as [|i], j as [|j]; simpl; try lia; try lra.
  - rewrite Forall_forall in Hx. apply Hx, nth_In. lia.
  - apply IH. lia.
Qed.

(** The interpolated value lies between its two neighbours. *)
Lemma np_percentile_between (l : list R) (q : nat) :
  l <> [] -> (q <= 100)%nat ->
  let k := ((List.length l - 1) * q)%nat in
  nth (k / 100) (np_sort l) 0 <= np_percentile l q
  /\ np_percentile l q
     <= nth (Nat.min (k / 100 + 1) (List.length l - 1)) (np_sort l) 0.
Proof.
  intros Hne Hq k. unfold np_percentile. fold k.
  assert (Hn : (0 < List.length l)%nat)
    by (destruct l; [congruence | simpl; lia]).
  set (n := List.length l) in *.
  assert (Hlo : (k / 100 <= n - 1)%nat).
  { apply Nat.Div0.div_le_upper_bound. unfold k. fold n. nia. }
  set (lo := (k / 100)%nat) in *.
  set (hi := Nat.min (lo + 1) (n - 1)).
  assert (Hab : nth lo (np_sort l) 0 <= nth hi (np_sort l) 0).
  { apply sorted_nth_le; [apply np_sort_sorted|].
    rewrite np_sort_length. fold n. unfold hi. lia. }
  assert (Hg : 0 <= INR (k mod 100) / 100 <= 1).
  { pose proof (Nat.mod_upper_bound k 100 ltac:(lia)) as Hm.
    pose proof (pos_INR (k mod 100)) as H0.
    apply lt_INR in Hm.
    replace (INR 100) with 100 in Hm by (rewrite INR_IZR_INZ; reflexivity).
    lra. }
  set (g := INR (k mod 100) / 100) in *.
  split; nra.
Qed.

(** [np.percentile] does not decrease with the requested rank. *)
Lemma np_percentile_monotone (l : list R) (q1 q2 : nat) :
  l <> [] -> (q1 <= q2 <= 100)%nat ->
  np_percentile l q1 <= np_percentile l q2.
Proof.
  intros Hne Hq.
  assert (Hn : (0 < List.length l)%nat)
    by (destruct l; [congruence | simpl; lia]).
  set (n := List.length l) in *.
  set (k1 := ((n - 1) * q1)%nat). set (k2 := ((n - 1) * q2)%nat).
  assert (Hk : (k1 <= k2)%nat) by (unfold k1, k2; nia).
  assert (Hk2 : (k2 / 100 <= n - 1)%nat).
  { apply Nat.Div0.div_le_upper_bound. unfold k2. nia. }
  assert (Hdiv : (k1 / 100 <= k2 / 100)%nat)
    by (apply Nat.Div0.div_le_mono; exact Hk).
  destruct (Nat.eq_dec (k1 / 100) (k2 / 100)) as [Heq|Hneq].
  - (* same neighbours, a larger fraction *)
    unfold np_percentile. fold n. fold k1. fold k2. rewrite Heq.
    set (lo := (k2 / 100)%nat) in *.
    set (hi := Nat.min (lo + 1) (n - 1)).
    assert (Hab : nth lo (np_sort l) 0 <= nth hi (np_sort l) 0).
    { apply sorted_nth_le; [apply np_sort_sorted|].
      rewrite np_sort_length. fold n. unfold hi. lia. }
    assert (Hm : (k1 mod 100 <= k2 mod 100)%nat).
    { pose proof (Nat.div_mod_eq k1 100). pose proof (Nat.div_mod_eq k2 100).
      fold lo in H0. rewrite Heq in H. fold lo in H. lia. }
    apply le_INR in Hm.
    assert (Hg : INR (k1 mod 100) / 100 <= INR (k2 mod 100) / 100) by lra.
    nra.
  - (* the upper neighbour of the first is below the second *)
    pose proof (np_percentile_between l q1 Hne ltac:(lia)) as [_ H1].
    pose proof (np_percentile_between l q2 Hne ltac:(lia)) as [H2 _].
    cbv zeta in H1, H2. fold n in H1, H2. fold k1 in H1. fold k2 in H2.
    eapply Rle_trans; [exact H1|]. eapply Rle_trans; [|exact H2].
    apply sorted_nth_le; [apply np_sort_sorted|].
    rewrite np_sort_length. fold n. lia.
Qed.

Lemma collect_ages_undated (current_time : R) (coll : list Memory) :
  (forall m, In m coll -> parse_timestamp (get_created_at m) = None) <->
  collect_ages current_time coll = [].
Proof.
  induction coll as [|m coll IH]; simpl.
  - split; [reflexivity | contradiction].
  - destruct (parse_timestamp (get_created_at m)) as [ts|] eqn:E.
    + split; [|discriminate].
      intros H. specialize (H m (or_introl eq_refl)). congruence.
    + rewrite <- IH. split.
      * intros H m' Hm'. apply H. right. exact Hm'.
      * intros H m' [<-|Hm']; [exact E | apply H, Hm'].
Qed.

(** X7.  Whatever the collection, the profile that is returned has a recent
    threshold of at least one hour, an old threshold of at most 168 hours,
    a non-negative deviation, and three fractions each in [0,1]. *)
Theorem build_temporal_profile_ranges (self : TemporalIntelligence)
    (current_time : R) (coll : list Memory) :
  let p := fst (build_temporal_profile self current_time coll) in
  let d := temporal_distribution p in
  1 <= recent_threshold_hours p
  /\ old_threshold_hours p <= 168
  /\ 0 <= std_age_hours p
  /\ 0 <= recent d <= 1 /\ 0 <= medium d <= 1 /\ 0 <= old d <= 1.
Proof.
  cbv zeta. unfold build_temporal_profile.
  destruct (collect_ages current_time coll) as [|a ages] eqn:E.
  - simpl. lra.
  - set (l := a :: ages). cbn [fst]. unfold profile_of_ages.
    cbn [recent_threshold_hours old_threshold_hours std_age_hours
         temporal_distribution recent medium old].
    assert (Hlen : (0 < List.length l)%nat) by (simpl; lia).
    split; [apply py_max_bounds|]. split; [apply py_min_bounds|].
    split; [apply sqrt_pos|].
    repeat split;
      apply ratio_bounds; solve [apply np_count_le_length | exact Hlen].
Qed.

(** X8.  When the collection has a parseable timestamp, its 25th-percentile
    age is at most 168 hours and its 75th-percentile age at least one hour,
    the two thresholds are in order and the three fractions sum to 1. *)
Theorem build_temporal_profile_fractions_sum_to_one
    (self : TemporalIntelligence) (current_time : R) (coll : list Memory) :
  let ages := collect_ages current_time coll in
  ages <> [] ->
  np_percentile ages 25 <= 168 ->
  1 <= np_percentile ages 75 ->
  let p := fst (build_temporal_profile self current_time coll) in
  let d := temporal_distribution p in
  recent_threshold_hours p <= old_threshold_hours p
  /\ recent d + medium d + old d = 1.
Proof.
  intros ages Hne H25 H75 p d. subst p d.
  unfold build_temporal_profile. fold ages.
  destruct ages as [|a rest] eqn:E; [congruence|].
  cbn [fst]. set (l := a :: rest) in *.
  pose proof (np_percentile_monotone l 25 75 Hne ltac:(lia)) as Hmono.
  assert (Hle : recent_threshold_hours (profile_of_ages l)
                <= old_threshold_hours (profile_of_ages l)).
  { unfold profile_of_ages.
    cbn [recent_threshold_hours old_threshold_hours].
    unfold py_max, py_min. repeat case_cmp; lra. }
  split; [exact Hle|].
  apply distribution_sums_to_one; assumption.
Qed.

(** X9.  The profile is the fixed default, and the instance is left as it
    was, exactly when no record of the collection has a parseable
    timestamp; otherwise the profile is computed from the ages and stored
    in the instance. *)
Theorem build_temporal_profile_default_or_stored
    (self : TemporalIntelligence) (current_time : R) (coll : list Memory) :
  ((forall m, In m coll -> parse_timestamp (get_created_at m) = None) ->
   build_temporal_profile self current_time coll = (default_profile, self))
  /\ ((exists m, In m coll /\ parse_timestamp (get_created_at m) <> None) ->
      let built := build_temporal_profile self current_time coll in
      fst built = profile_of_ages (collect_ages current_time coll)
      /\ _profile (snd built) = Some (fst built)
      /\ _query_embeddings_cache (snd built) = _query_embeddings_cache self).
Proof.
  split.
  - intros H. apply build_temporal_profile_no_ages.
    apply collect_ages_undated. exact H.
  - intros (m & Hin & Hp). cbv zeta. unfold build_temporal_profile.
    destruct (collect_ages current_time coll) as [|a ages] eqn:E.
    + pose proof (proj2 (collect_ages_undated current_time coll) E m Hin).
      congruence.
    + repeat split.
Qed.

(* ================================================================= *)
(** ** More on timestamp retrieval *)

Lemma sorted_app_cross {A : Type} (rel : A -> A -> Prop) (l1 l2 : list A) :
  StronglySorted rel (l1 ++ l2) ->
  forall x y, In x l1 -> In y l2 -> rel x y.
Proof.
  induction l1 as [|a l1 IH]; simpl; intros Hs x y Hx Hy; [contradiction|].
  inversion Hs as [|? ? Hs' Ha]; subst.
  destruct Hx as [<-|Hx].
  - rewrite Forall_forall in Ha. apply Ha, in_or_app. right. exact Hy.
  - apply IH; assumption.
Qed.

Lemma slice_to_firstn {A : Type} (limit : Z) (l : list A) :
  exists n, slice_to limit l = firstn n l.
Proof. unfold slice_to. destruct (0 <=? limit)%Z; eexists; reflexivity. Qed.

(** A record that parses and passes the filter is kept by the loop. *)
Lemma timestamped_memories_complete (current_time : R) (tf : option R)
    (coll : list Memory) (m0 : Memory) (ts : R) :
  In m0 coll ->
  parse_timestamp (get_created_at m0) = Some ts ->
  (forall h, tf = Some h -> (current_time - ts) / 3600 <= h) ->
  exists m,
    In m (timestamped_memories current_time tf coll)
    /\ mem_id m = mem_id m0 /\ created_at m = created_at m0
    /\ sort_timestamp m = Some ts.
Proof.
  intros Hin Hp Hf. induction coll as [|m1 coll IH]; [contradiction|].
  simpl.
  assert (Hrest :
            In m0 coll ->
            exists m,
              In m (timestamped_memories current_time tf coll)
              /\ mem_id m = mem_id m0 /\ created_at m = created_at m0
              /\ sort_timestamp m = Some ts) by exact IH.
  destruct Hin as [->|Hin].
  - rewrite Hp.
    assert (Hkeep : match tf with
                    | Some h => Rgtb ((current_time - ts) / 3600) h
                    | None => false
                    end = false).
    { destruct tf as [h|]; [|reflexivity].
      apply Rgtb_false, Hf. reflexivity. }
    rewrite Hkeep. eexists. split; [left; reflexivity|].
    repeat split.
  - destruct (Hrest Hin) as (m & Hm & Hrel).
    exists m. split; [|exact Hrel].
    destruct (parse_timestamp (get_created_at m1)) as [ts1|]; [|exact Hm].
    destruct (match tf with
              | Some h => Rgtb ((current_time - ts1) / 3600) h
              | None => false
              end); [exact Hm | right; exact Hm].
Qed.

Lemma timestamped_memories_length (current_time : R) (tf : option R)
    (coll : list Memory) :
  List.length (timestamped_memories current_time tf coll)
  = List.length
      (filter
         (fun m =>
            match parse_timestamp (get_created_at m), tf with
            | Some ts, Some h => Rleb ((current_time - ts) / 3600) h
            | Some ts, None => true
            | None, _ => false
            end) coll).
Proof.
  induction coll as [|m coll IH]; [reflexivity|].
  simpl. destruct (parse_timestamp (get_created_at m)) as [ts|];
    [|exact IH].
  destruct tf as [h|]; [|simpl; rewrite IH; reflexivity].
  unfold Rgtb, Rleb.
  destruct (Rgt_dec ((current_time - ts) / 3600) h),
           (Rle_dec ((current_time - ts) / 3600) h);
    simpl; try rewrite IH; try reflexivity; exfalso; lra.
Qed.

(** X10.  For a limit that is not negative, the number of records returned
    is the smaller of the limit and the number of records of the collection
    whose timestamp parses and whose age passes the filter: nothing
    eligible is lost before the limit is reached. *)
Theorem get_memories_by_timestamp_length (current_time : R)
    (coll : list Memory) (limit : Z) (tf : option R) :
  (0 <= limit)%Z ->
  let eligible (m : Memory) :=
    match parse_timestamp (get_created_at m), tf with
    | Some ts, Some h => Rleb ((current_time - ts) / 3600) h
    | Some ts, None => true
    | None, _ => false
    end in
  List.length (get_memories_by_timestamp current_time coll limit tf)
  = Nat.min (Z.to_nat limit) (List.length (filter eligible coll)).
Proof.
  intros Hlimit eligible. unfold get_memories_by_timestamp, slice_to.
  rewrite length_map.
  destruct (0 <=? limit)%Z eqn:E; [|apply Z.leb_gt in E; lia].
  rewrite length_firstn, sort_desc_length, timestamped_memories_length.
  reflexivity.
Qed.

(** X11.  The records returned are the newest ones: whenever a record of the
    collection parses, passes the filter and is strictly newer than some
    returned record, it is itself among the returned records. *)
Theorem get_memories_by_timestamp_keeps_newest (current_time : R)
    (coll : list Memory) (limit : Z) (tf : option R)
    (m m0 : Memory) (t t0 : R) :
  let out := get_memories_by_timestamp current_time coll limit tf in
  In m out ->
  parse_timestamp (get_created_at m) = Some t ->
  In m0 coll ->
  parse_timestamp (get_created_at m0) = Some t0 ->
  (forall h, tf = Some h -> (current_time - t0) / 3600 <= h) ->
  t < t0 ->
  exists m0', In m0' out /\ mem_id m0' = mem_id m0
              /\ created_at m0' = created_at m0.
Proof.
  intros out Hm Hpt Hm0 Hpt0 Hf Hlt. subst out.
  unfold get_memories_by_timestamp in *.
  set (all := timestamped_memories current_time tf coll) in *.
  set (sorted := sort_desc get_sort_timestamp all) in *.
  destruct (slice_to_firstn limit sorted) as (n & Hn). rewrite Hn in *.
  destruct (timestamped_memories_complete current_time tf coll m0 t0
              Hm0 Hpt0 Hf) as (d0 & Hd0 & Hid0 & Hc0 & Hs0).
  fold all in Hd0.
  apply (sort_desc_in get_sort_timestamp) in Hd0. fold sorted in Hd0.
  rewrite <- (firstn_skipn n sorted) in Hd0.
  apply in_app_or in Hd0. destruct Hd0 as [Hhead|Htail].
  - exists (pop_sort_timestamp d0).
    split; [apply in_map, Hhead|]. split; assumption.
  - exfalso.
    apply in_map_iff in Hm. destruct Hm as (d & <- & Hd).
    pose proof (sort_desc_sorted get_sort_timestamp all) as Hsorted.
    fold sorted in Hsorted. rewrite <- (firstn_skipn n sorted) in Hsorted.
    pose proof (sorted_app_cross _ _ _ Hsorted d d0 Hd Htail) as Hrel.
    unfold desc, get_sort_timestamp in Hrel. rewrite Hs0 in Hrel.
    apply in_firstn, sort_desc_in, timestamped_memories_spec in Hd.
    destruct Hd as (m1 & ts1 & _ & Hp1 & _ & _ & Hc1 & _ & Hs1 & _).
    rewrite Hs1 in Hrel.
    assert (Hsame : parse_timestamp (get_created_at (pop_sort_timestamp d))
                    = Some ts1).
    { unfold get_created_at in *. simpl. rewrite Hc1. exact Hp1. }
    rewrite Hsame in Hpt. injection Hpt as <-. lra.
Qed.

(* ================================================================= *)
(** ** More on intent classification and routing *)

Lemma analyze_intent_result (self : TemporalIntelligence) (current_time : R)
    (query : string) (coll : list Memory) :
  let combined :=
    fst (_semantic_temporal_detection self query) * 0.4
    + _estimate_temporal_benefit current_time query coll * 0.3
    + _linguistic_temporal_analysis query * 0.3 in
  fst (analyze_intent self current_time query coll)
  = (if Rgeb combined 0.7 then TEMPORAL_PRIMARY
     else if Rgeb combined 0.3 then TEMPORAL_SECONDARY
     else SEMANTIC_ONLY,
     combined).
Proof.
  unfold analyze_intent.
  destruct (_semantic_temporal_detection self query) as [s self'].
  cbv zeta. cbn [fst].
  repeat case_cmp; reflexivity.
Qed.

(** How [route_query] answers the output of [analyze_intent]. *)
Lemma route_query_of_analysis (self : TemporalIntelligence)
    (current_time : R) (query : string) (coll : list Memory) :
  let intent := fst (fst (analyze_intent self current_time query coll)) in
  let c := snd (fst (analyze_intent self current_time query coll)) in
  let routed := route_query query coll intent (PyFloat c) in
  route_query_try query coll intent (PyFloat c) = Some routed
  /\ (0.8 < c ->
      routed = ("timestamp_direct", TimestampDirectParams 5 None))
  /\ (0.7 <= c <= 0.8 ->
      routed
      = ("semantic_temporal_hybrid", HybridParams 3 (PyFloat c) true))
  /\ (0.3 <= c < 0.7 ->
      routed
      = ("semantic_temporal_hybrid",
         HybridParams 2 (PyFloat (c * 0.5)) false))
  /\ (c < 0.3 -> routed = ("semantic_only", SemanticOnlyParams 5 true)).
Proof.
  cbv zeta. rewrite analyze_intent_result. cbv zeta. cbn [fst snd].
  set (c := _ * 0.4 + _ * 0.3 + _ * 0.3).
  unfold route_query, route_query_try.
  destruct (Rgeb c 0.7) eqn:E7;
    [apply Rgeb_true in E7 | apply Rgeb_false in E7].
  - cbn [QueryIntent_eqb py_gt].
    destruct (Rgtb c 0.8) eqn:E8;
      [apply Rgtb_true in E8 | apply Rgtb_false in E8];
      repeat split; intros; try reflexivity; exfalso; lra.
  - destruct (Rgeb c 0.3) eqn:E3;
      [apply Rgeb_true in E3 | apply Rgeb_false in E3];
      cbn [QueryIntent_eqb py_gt py_mul];
      repeat split; intros; try reflexivity; exfalso; lra.
Qed.

(** X12.  Classification followed by routing, as the search entry point
    chains them: the routing body never raises on the classifier's output,
    and the strategy is decided by the combined confidence alone --
    above 0.8 [timestamp_direct]; from 0.7 to 0.8 the hybrid strategy with
    multiplier 3, the confidence as weight and the fresh-memory boost; from
    0.3 up to 0.7 the hybrid strategy with multiplier 2 and half the
    confidence as weight; below 0.3 [semantic_only]. *)
Theorem routing_by_combined_confidence (self : TemporalIntelligence)
    (current_time : R) (query : string) (coll : list Memory) :
  let intent := fst (fst (analyze_intent self current_time query coll)) in
  let c := snd (fst (analyze_intent self current_time query coll)) in
  let routed := route_query query coll intent (PyFloat c) in
  route_query_try query coll intent (PyFloat c) = Some routed
  /\ (0.8 < c ->
      routed = ("timestamp_direct", TimestampDirectParams 5 None))
  /\ (0.7 <= c <= 0.8 ->
      routed
      = ("semantic_temporal_hybrid", HybridParams 3 (PyFloat c) true))
  /\ (0.3 <= c < 0.7 ->
      routed
      = ("semantic_temporal_hybrid",
         HybridParams 2 (PyFloat (c * 0.5)) false))
  /\ (c < 0.3 -> routed = ("semantic_only", SemanticOnlyParams 5 true)).
Proof. exact (route_query_of_analysis self current_time query coll). Qed.

Lemma semantic_detection_unavailable (self : TemporalIntelligence)
    (query : string) :
  cache_get (_query_embeddings_cache self) query = None ->
  create_embedding query = None ->
  _semantic_temporal_detection self query = (0, self).
Proof.
  intros Hc He. unfold _semantic_temporal_detection, cached_embedding.
  rewrite Hc, He. reflexivity.
Qed.

(** X13.  When the query is not in the embedding cache and the embedding
    call fails, the confidence is at most 0.6, so the intent is never
    [TEMPORAL_PRIMARY] and routing never chooses [timestamp_direct]. *)
Theorem embedding_failure_rules_out_timestamp_direct
    (self : TemporalIntelligence) (current_time : R) (query : string)
    (coll : list Memory) :
  cache_get (_query_embeddings_cache self) query = None ->
  create_embedding query = None ->
  let intent := fst (fst (analyze_intent self current_time query coll)) in
  let c := snd (fst (analyze_intent self current_time query coll)) in
  c <= 0.6
  /\ intent <> TEMPORAL_PRIMARY
  /\ fst (route_query query coll intent (PyFloat c)) <> "timestamp_direct".
Proof.
  intros Hc He. cbv zeta. rewrite analyze_intent_result. cbv zeta.
  rewrite (semantic_detection_unavailable self query Hc He).
  cbn [fst snd].
  pose proof (estimate_temporal_benefit_bounds current_time query coll).
  pose proof (linguistic_temporal_analysis_bounds query).
  set (c := 0 * 0.4 + _ * 0.3 + _ * 0.3).
  assert (Hle : c <= 0.6) by (unfold c; lra).
  split; [exact Hle|].
  destruct (Rgeb c 0.7) eqn:E7; [apply Rgeb_true in E7; lra|].
  destruct (Rgeb c 0.3); split; discriminate.
Qed.

Lemma np_count_all (cond : R -> bool) (l : list R) :
  Forall (fun a => cond a = true) l -> np_count cond l = List.length l.
Proof.
  unfold np_count. induction 1 as [|a l Ha _ IH]; [reflexivity|].
  simpl. rewrite Ha. simpl. rewrite IH. reflexivity.
Qed.

Lemma np_count_none (cond : R -> bool) (l : list R) :
  Forall (fun a => cond a = false) l -> np_count cond l = 0%nat.
Proof.
  unfold np_count. induction 1 as [|a l Ha _ IH]; [reflexivity|].
  simpl. rewrite Ha. exact IH.
Qed.

Lemma estimate_temporal_benefit_of_ages (current_time : R) (query : string)
    (coll : list Memory) (a : R) (rest : list R) :
  collect_ages current_time coll = a :: rest ->
  exists v,
    0 <= v <= 1
    /\ _estimate_temporal_benefit current_time query coll
       = INR (np_count (fun x => Rltb x 24) (a :: rest))
         / INR (List.length (a :: rest)) * 0.6
         + v * 0.4.
Proof.
  intros E. unfold _estimate_temporal_benefit.
  destruct coll as [|m0 coll0]; [discriminate|].
  rewrite E. set (l := a :: rest).
  assert (Hvar : 0 <= (if (1 <? List.length l)%nat then np_var l else 0)).
  { destruct (1 <? List.length l)%nat; [|lra].
    apply np_var_nonneg. discriminate. }
  set (var := if (1 <? List.length l)%nat then np_var l else 0) in *.
  exists (py_min (var / 1000) 1). split.
  - pose proof (py_min_bounds (var / 1000) 1).
    destruct (py_min_cases (var / 1000) 1) as [Ev|Ev]; rewrite Ev in *; lra.
  - replace (0 <? List.length l)%nat with true by reflexivity.
    reflexivity.
Qed.

(** X14.  The statistical benefit is 0 for a collection without a parseable
    timestamp, at least 0.6 when every dated record is younger than 24
    hours, and at most 0.4 when none is. *)
Theorem estimate_temporal_benefit_by_recency (current_time : R)
    (query : string) (coll : list Memory) :
  let ages := collect_ages current_time coll in
  let benefit := _estimate_temporal_benefit current_time query coll in
  (ages = [] -> benefit = 0)
  /\ (ages <> [] -> Forall (fun a => a < 24) ages -> 0.6 <= benefit)
  /\ (ages <> [] -> Forall (fun a => 24 <= a) ages -> benefit <= 0.4).
Proof.
  cbv zeta. split; [|split].
  - intros E. unfold _estimate_temporal_benefit.
    destruct coll; [reflexivity|]. rewrite E. reflexivity.
  - intros Hne Hall.
    destruct (collect_ages current_time coll) as [|a rest] eqn:E;
      [congruence|].
    destruct (estimate_temporal_benefit_of_ages current_time query coll
                a rest E) as (v & Hv & ->).
    rewrite np_count_all.
    + unfold Rdiv. rewrite Rinv_r; [lra|].
      apply not_0_INR. discriminate.
    + eapply Forall_impl; [|exact Hall]. intros x Hx. apply Rltb_true, Hx.
  - intros Hne Hall.
    destruct (collect_ages current_time coll) as [|a rest] eqn:E;
      [congruence|].
    destruct (estimate_temporal_benefit_of_ages current_time query coll
                a rest E) as (v & Hv & ->).
    rewrite np_count_none.
    + simpl INR at 1. unfold Rdiv. rewrite Rmult_0_l. lra.
    + eapply Forall_impl; [|exact Hall]. intros x Hx. apply Rltb_false, Hx.
Qed.

(* ================================================================= *)
(** ** Ranking explanation *)

Lemma prefix_nil (s : string) : String.prefix "" s = true.
Proof. destruct s; reflexivity. Qed.

Lemma prefix_app (p s : string) : String.prefix p (p ++ s) = true.
Proof.
  induction p as [|c p IH]; simpl; [apply prefix_nil|].
  destruct (ascii_dec c c); [exact IH | congruence].
Qed.

Lemma append_assoc' (x y z : string) : (x ++ y) ++ z = x ++ y ++ z.
Proof.
  induction x as [|c x IH]; simpl; [reflexivity | rewrite IH; reflexivity].
Qed.

Lemma concat_two_prefix (sep x y : string) (rest : list string) :
  String.prefix (x ++ sep) (String.concat sep (x :: y :: rest)) = true.
Proof.
  change (String.concat sep (x :: y :: rest))
    with (x ++ sep ++ String.concat sep (y :: rest)).
  rewrite <- append_assoc'. apply prefix_app.
Qed.

Lemma ranking_lines_none (ms : list Memory) :
  forall i,
    ranking_lines i ms = None <->
    exists m, In m ms
              /\ (temporal_score m = None
                  \/ original_semantic_score m = None).
Proof.
  induction ms as [|m ms IH]; intros i; simpl.
  - split; [discriminate | intros (m & [] & _)].
  - unfold ranking_line.
    destruct (temporal_score m) as [t|] eqn:Et.
    + destruct (original_semantic_score m) as [s|] eqn:Es.
      * destruct (ranking_lines (S i) ms) as [lines|] eqn:El.
        -- split; [discriminate|].
           intros (m' & [<-|Hin] & Hm').
           ++ destruct Hm'; congruence.
           ++ assert (Hnone : ranking_lines (S i) ms = None)
                by (apply IH; exists m'; auto).
              congruence.
        -- split; [|reflexivity]. intros _.
           apply IH in El. destruct El as (m' & Hin & Hm').
           exists m'. auto.
      * split; [|reflexivity]. intros _. exists m. auto.
    + split; [|reflexivity]. intros _. exists m. auto.
Qed.

(** The three outcomes of [explain_ranking]. *)
Lemma explain_ranking_spec (self : TemporalIntelligence)
    (ranked : list Memory) (intent : QueryIntent) :
  let text := explain_ranking self ranked intent in
  let header := "Query Intent: " ++ QueryIntent_value intent in
  (intent = SEMANTIC_ONLY \/ ranked = [] -> text = header)
  /\ (intent <> SEMANTIC_ONLY -> ranked <> [] ->
      (forall m, In m (firstn 3 ranked) ->
                 temporal_score m <> None
                 /\ original_semantic_score m <> None) ->
      String.prefix (header ++ newline) text = true)
  /\ (intent <> SEMANTIC_ONLY -> ranked <> [] ->
      (exists m, In m (firstn 3 ranked)
                 /\ (temporal_score m = None
                     \/ original_semantic_score m = None)) ->
      text = "Query processed with intent: " ++ QueryIntent_value intent).
Proof.
  cbv zeta. unfold explain_ranking, explain_ranking_try.
  split; [|split].
  - intros [->| ->]; [reflexivity|].
    destruct intent; reflexivity.
  - intros Hi Hne Hall.
    assert (Hguard : negb (QueryIntent_eqb intent SEMANTIC_ONLY)
                     && negb (match ranked with [] => true | _ => false end)
                     = true).
    { destruct intent, ranked; try congruence; reflexivity. }
    rewrite Hguard.
    destruct (ranking_lines 0 (firstn 3 ranked)) as [lines|] eqn:El.
    + destruct (_profile self); apply concat_two_prefix.
    + apply ranking_lines_none in El. destruct El as (m & Hin & Hm).
      destruct (Hall m Hin) as [Ht Hs]. destruct Hm; congruence.
  - intros Hi Hne Hex.
    assert (Hguard : negb (QueryIntent_eqb intent SEMANTIC_ONLY)
                     && negb (match ranked with [] => true | _ => false end)
                     = true).
    { destruct intent, ranked; try congruence; reflexivity. }
    rewrite Hguard.
    apply (ranking_lines_none (firstn 3 ranked) 0) in Hex.
    rewrite Hex. reflexivity.
Qed.

(** X15.  The explanation always names the intent.  For [SEMANTIC_ONLY] or
    an empty list it is the single line ["Query Intent: <intent>"]; for a
    temporal intent and a non-empty list it starts with that line when
    each of the first three records has a [temporal_score] and an
    [original_semantic_score], and it is the one-line fallback ["Query
    processed with intent: <intent>"] as soon as one of them lacks either
    score. *)
Theorem explain_ranking_cases (self : TemporalIntelligence)
    (ranked : list Memory) (intent : QueryIntent) :
  let text := explain_ranking self ranked intent in
  let header := "Query Intent: " ++ QueryIntent_value intent in
  (intent = SEMANTIC_ONLY \/ ranked = [] -> text = header)
  /\ (intent <> SEMANTIC_ONLY -> ranked <> [] ->
      (forall m, In m (firstn 3 ranked) ->
                 temporal_score m <> None
                 /\ original_semantic_score m <> None) ->
      String.prefix (header ++ newline) text = true)
  /\ (intent <> SEMANTIC_ONLY -> ranked <> [] ->
      (exists m, In m (firstn 3 ranked)
                 /\ (temporal_score m = None
                     \/ original_semantic_score m = None)) ->
      text = "Query processed with intent: " ++ QueryIntent_value intent).
Proof. exact (explain_ranking_spec self ranked intent). Qed.

Lemma timestamped_memories_scores (current_time : R) (tf : option R)
    (coll : list Memory) (m : Memory) :
  In m (timestamped_memories current_time tf coll) ->
  exists m0, In m0 coll
             /\ temporal_score m = temporal_score m0
             /\ original_semantic_score m = original_semantic_score m0.
Proof.
  induction coll as [|m1 coll IH]; simpl; [contradiction|].
  assert (Hrest :
            In m (timestamped_memories current_time tf coll) ->
            exists m0, In m0 (m1 :: coll)
                       /\ temporal_score m = temporal_score m0
                       /\ original_semantic_score m
                          = original_semantic_score m0).
  { intros H. destruct (IH H) as (m0 & Hin & Hs).
    exists m0. split; [right; exact Hin | exact Hs]. }
  destruct (parse_timestamp (get_created_at m1)) as [ts|]; [|exact Hrest].
  destruct (match tf with
            | Some h => Rgtb ((current_time - ts) / 3600) h
            | None => false
            end); [exact Hrest|].
  intros [<-|H]; [|exact (Hrest H)].
  exists m1. simpl. auto.
Qed.

(** X16.  What the two retrieval paths give the explainer.  After adaptive
    scoring under a temporal intent every record carries both scores, so
    the explanation of a non-empty result is the full one.  Timestamp
    retrieval adds no score: for a collection whose records carry no
    [temporal_score], as the memory store returns them, the explanation of
    any non-empty result under a temporal intent is the fallback line. *)
Theorem explain_ranking_after_retrieval (self : TemporalIntelligence)
    (current_time : R) (ms : list Memory) (intent : QueryIntent)
    (confidence : R) (profile : option TemporalProfile) (limit : Z)
    (tf : option R) :
  intent <> SEMANTIC_ONLY ->
  (ms <> [] ->
   let scored :=
     adaptive_temporal_scoring self current_time ms intent confidence
       profile in
   String.prefix ("Query Intent: " ++ QueryIntent_value intent ++ newline)
     (explain_ranking (snd scored) (fst scored) intent) = true)
  /\ ((forall m, In m ms -> temporal_score m = None) ->
      let out := get_memories_by_timestamp current_time ms limit tf in
      out <> [] ->
      explain_ranking self out intent
      = "Query processed with intent: " ++ QueryIntent_value intent).
Proof.
  intros Hi. split.
  - intros Hne scored.
    pose proof (explain_ranking_spec (snd scored) (fst scored) intent)
      as (_ & Hfull & _). cbv zeta in Hfull.
    replace ("Query Intent: " ++ QueryIntent_value intent ++ newline)
      with (("Query Intent: " ++ QueryIntent_value intent) ++ newline)
      by reflexivity.
    apply Hfull; [exact Hi | |].
    + subst scored.
      rewrite adaptive_temporal_scoring_temporal by exact Hi.
      intros E. apply (f_equal (@List.length Memory)) in E.
      rewrite sort_desc_length, length_map in E.
      destruct ms; [congruence | discriminate].
    + intros m Hm. apply in_firstn in Hm. subst scored.
      rewrite adaptive_temporal_scoring_temporal in Hm by exact Hi.
      apply sort_desc_in, in_map_iff in Hm. destruct Hm as (m0 & <- & _).
      split; discriminate.
  - intros Hraw out Hne.
    assert (Hsrc : forall m, In m out -> temporal_score m = None).
    { intros m Hin. unfold out, get_memories_by_timestamp in Hin.
      apply in_map_iff in Hin. destruct Hin as (d & <- & Hd).
      apply slice_to_incl, sort_desc_in, timestamped_memories_scores in Hd.
      destruct Hd as (m0 & Hm0 & Ht & _).
      simpl. rewrite Ht. apply Hraw, Hm0. }
    clearbody out.
    pose proof (explain_ranking_spec self out intent) as (_ & _ & Hfall).
    cbv zeta in Hfall. apply Hfall; [exact Hi | exact Hne |].
    destruct out as [|m out']; [congruence|].
    exists m. split; [left; reflexivity|]. left.
    apply Hsrc. left. reflexivity.
Qed.

(* ================================================================= *)
(** ** The retrieval stage of the search entry point *)

(** What the fresh-memory boost appends. *)
Lemma add_fresh_memories_spec (ms fresh : list Memory) :
  exists added,
    add_fresh_memories ms fresh = (ms ++ added)%list
    /\ (List.length added <= 10)%nat
    /\ (forall f, In f added <->
                  In f (firstn 10 fresh)
                  /\ ~ In (mem_id f) (map mem_id ms)).
Proof.
  unfold add_fresh_memories.
  eexists. split; [reflexivity|]. split.
  - etransitivity; [apply filter_length_le|].
    rewrite length_firstn. lia.
  - intros f. rewrite filter_In. apply and_iff_compat_l.
    rewrite negb_true_iff. split.
    + intros Hno Hin. apply in_map_iff in Hin.
      destruct Hin as (m & Hid & Hm).
      assert (Hex : existsb (String.eqb (mem_id f)) (map mem_id ms) = true).
      { apply existsb_exists. exists (mem_id m).
        split; [apply in_map, Hm|]. rewrite Hid. apply String.eqb_refl. }
      congruence.
    + intros Hno.
      destruct (existsb (String.eqb (mem_id f)) (map mem_id ms)) eqn:E;
        [|reflexivity].
      apply existsb_exists in E. destruct E as (k & Hk & Heq).
      apply String.eqb_eq in Heq. subst k. contradiction.
Qed.

(** X21.  The fresh-memory boost keeps the search results in place and
    appends, in order, exactly those of the first ten fresh records whose
    id is not the id of a search result: at most ten records, none of them
    sharing an id with a search result. *)
Theorem add_fresh_memories_appends_unseen (ms fresh : list Memory) :
  exists added,
    add_fresh_memories ms fresh = (ms ++ added)%list
    /\ (List.length added <= 10)%nat
    /\ (forall f, In f added <->
                  In f (firstn 10 fresh)
                  /\ ~ In (mem_id f) (map mem_id ms)).
Proof. exact (add_fresh_memories_spec ms fresh). Qed.

Lemma slice_to_length_nat {A : Type} (limit : Z) (l : list A) :
  (0 <= limit)%Z -> (List.length (slice_to limit l) <= Z.to_nat limit)%nat.
Proof.
  intros H. pose proof (slice_to_length limit l H). lia.
Qed.

Lemma retrieve_final_memories_unfold (self : TemporalIntelligence)
    (current_time : R) (query : string) (ms : list Memory)
    (get_all : option (list Memory)) (limit : Z) :
  let analysis := analyze_intent self current_time query ms in
  let intent := fst (fst analysis) in
  let c := snd (fst analysis) in
  let routed := route_query query ms intent (PyFloat c) in
  retrieve_final_memories self current_time query ms get_all limit
  = execute_strategy (snd analysis) current_time (fst routed) (snd routed)
      ms get_all intent c limit.
Proof.
  cbv zeta. unfold retrieve_final_memories.
  destruct (analyze_intent self current_time query ms) as [[intent c] self'].
  cbn [fst snd].
  destruct (route_query query ms intent (PyFloat c)) as [strategy params].
  reflexivity.
Qed.

(** X22.  The retrieval stage fails in one case only: the confidence is
    above 0.8 and [get_all] raises.  In every other case it returns a list,
    and for a limit that is not negative the list has at most [limit]
    records. *)
Theorem retrieve_final_memories_outcome (self : TemporalIntelligence)
    (current_time : R) (query : string) (ms : list Memory)
    (get_all : option (list Memory)) (limit : Z) :
  let c := snd (fst (analyze_intent self current_time query ms)) in
  let result :=
    retrieve_final_memories self current_time query ms get_all limit in
  (result = None <-> 0.8 < c /\ get_all = None)
  /\ (forall final self',
        result = Some (final, self') -> (0 <= limit)%Z ->
        (List.length final <= Z.to_nat limit)%nat).
Proof.
  cbv zeta. rewrite retrieve_final_memories_unfold. cbv zeta.
  pose proof (route_query_of_analysis self current_time query ms)
    as (_ & Hdirect & Hh3 & Hh2 & Hsem).
  cbv zeta in Hdirect, Hh3, Hh2, Hsem.
  set (analysis := analyze_intent self current_time query ms) in *.
  set (c := snd (fst analysis)) in *.
  set (intent := fst (fst analysis)) in *.
  set (routed := route_query query ms intent (PyFloat c)) in *.
  destruct (Rlt_dec 0.8 c) as [H8|H8].
  - rewrite (Hdirect H8). cbn [fst snd execute_strategy String.eqb].
    unfold execute_strategy. cbn [fst snd]. simpl String.eqb.
    destruct get_all as [all|].
    + split; [split; [discriminate | intros [_ ?]; discriminate]|].
      intros final self' H Hl. injection H as <- <-.
      unfold get_memories_by_timestamp. rewrite length_map.
      apply slice_to_length_nat, Hl.
    + split; [split; auto|]. intros; discriminate.
  - assert (Hcases : routed
                     = ("semantic_temporal_hybrid",
                        HybridParams 3 (PyFloat c) true)
                     \/ routed
                        = ("semantic_temporal_hybrid",
                           HybridParams 2 (PyFloat (c * 0.5)) false)
                     \/ routed
                        = ("semantic_only", SemanticOnlyParams 5 true)).
    { destruct (Rle_dec 0.7 c); [left; apply Hh3; lra|].
      destruct (Rle_dec 0.3 c); [right; left; apply Hh2; lra|].
      right; right; apply Hsem; lra. }
    destruct Hcases as [-> | [-> | ->]];
      unfold execute_strategy; cbn [fst snd]; simpl String.eqb;
      cbn [params_use_fresh_memory_boost].
    + destruct (adaptive_temporal_scoring (snd analysis) current_time _
                  intent c None) as [scored self''].
      split; [split; [discriminate | intros [? _]; lra]|].
      intros final self' H Hl. injection H as <- <-.
      apply slice_to_length_nat, Hl.
    + destruct (adaptive_temporal_scoring (snd analysis) current_time _
                  intent c None) as [scored self''].
      split; [split; [discriminate | intros [? _]; lra]|].
      intros final self' H Hl. injection H as <- <-.
      apply slice_to_length_nat, Hl.
    + split; [split; [discriminate | intros [? _]; lra]|].
      intros final self' H Hl. injection H as <- <-.
      apply slice_to_length_nat, Hl.
Qed.


End Engine.

(* ================================================================= *)
(** ** The engine on sample data *)

(** Rewrite a comparison of the goal that linear arithmetic decides. *)
Ltac decide_cmp :=
  match goal with
  | |- context [Rleb ?x ?y] =>
      first [ rewrite (proj2 (Rleb_true x y)) by lra
            | rewrite (proj2 (Rleb_false x y)) by lra ]
  | |- context [Rltb ?x ?y] =>
      first [ rewrite (proj2 (Rltb_true x y)) by lra
            | rewrite (proj2 (Rltb_false x y)) by lra ]
  | |- context [Rgtb ?x ?y] =>
      first [ rewrite (proj2 (Rgtb_true x y)) by lra
            | rewrite (proj2 (Rgtb_false x y)) by lra ]
  | |- context [Rgeb ?x ?y] =>
      first [ rewrite (proj2 (Rgeb_true x y)) by lra
            | rewrite (proj2 (Rgeb_false x y)) by lra ]
  | |- context [Reqb ?x ?y] =>
      first [ rewrite (proj2 (Reqb_true x y)) by lra
            | rewrite (proj2 (Reqb_false x y)) by lra ]
  end.

(** Evaluate the engine on concrete records: parse the numeric timestamps,
    unfold, and decide the comparisons of constants. *)
Ltac py_eval :=
  repeat first
    [ rewrite parse_timestamp_float by lra
    | progress cbn -[Rgtb Reqb Rgeb Rleb Rltb Rdiv Rminus Rplus Rmult IZR exp]
    | decide_cmp ].

(** Timestamp retrieval at clock 1700720000 with a 24 hour filter: the
    record of more than a week ago and the record without [created_at] are
    left out, the newest of the others comes first. *)
Example get_memories_by_timestamp_sample :
  get_memories_by_timestamp iso_unavailable 1700720000
    [memory_at "a" 1700000000 0.5; memory_undated "b" 0.9;
     memory_at "d" 1700712800 0.1; memory_at "c" 1700716400 0.1]
    5 (Some 24)
  = [mkMemory "c" "" (Some (PyFloat 1700716400)) (Some 0.1) None None
       (Some ((1700720000 - 1700716400) / 3600)) None;
     mkMemory "d" "" (Some (PyFloat 1700712800)) (Some 0.1) None None
       (Some ((1700720000 - 1700712800) / 3600)) None].
Proof.
  unfold get_memories_by_timestamp, memory_at, memory_undated.
  py_eval. reflexivity.
Qed.

(** Scoring records without timestamps: ranked by semantic score, ties in
    input order. *)
Example adaptive_temporal_scoring_sample :
  map mem_id
    (fst (adaptive_temporal_scoring iso_unavailable fresh_instance 1700720000
            [memory_undated "a" 0.2; memory_undated "b" 0.9;
             memory_undated "c" 0.2; memory_undated "d" 0.9]
            TEMPORAL_PRIMARY 0.75 None))
  = ["b"; "d"; "a"; "c"].
Proof.
  unfold adaptive_temporal_scoring, memory_undated, score_memory, final_score.
  py_eval. reflexivity.
Qed.

(** Two records of 30 and 54 minutes ago: the recent threshold is floored at
    one hour, above the old threshold of 0.8 hours, and the fractions sum to
    3/2. *)
Example build_temporal_profile_young_collection :
  let profile :=
    fst (build_temporal_profile iso_unavailable fresh_instance 1700720000
           [memory_at "x" 1700718200 0.5; memory_at "y" 1700716760 0.5]) in
  let d := temporal_distribution profile in
  recent d + medium d + old d = 3 / 2.
Proof.
  cbv zeta.
  unfold build_temporal_profile, memory_at, profile_of_ages, np_percentile,
    np_count, np_sort, py_max, py_min.
  py_eval. lra.
Qed.

Lemma collect_ages_single (iso : string -> option R) (now epoch s : R)
    (id : string) :
  epoch <> 0 ->
  collect_ages iso now [memory_at id epoch s] = [(now - epoch) / 3600].
Proof.
  intros He. unfold collect_ages, memory_at, get_created_at. simpl.
  rewrite parse_timestamp_float by exact He. reflexivity.
Qed.

(** C1.  A collection of one record that is 200 hours old: the recent
    threshold is the record's own age, the old threshold is capped at 168
    hours, the record is counted as recent and as old, and the three
    fractions of the profile sum to 2. *)
Theorem build_temporal_profile_stale_record_fractions :
  let collection := [memory_at "m" 1700000000 0.5] in
  let profile :=
    fst (build_temporal_profile iso_unavailable fresh_instance 1700720000
           collection) in
  let d := temporal_distribution profile in
  recent_threshold_hours profile = 200
  /\ old_threshold_hours profile = 168
  /\ recent d = 1 /\ medium d = 0 /\ old d = 1
  /\ recent d + medium d + old d = 2.
Proof.
  cbv zeta. unfold build_temporal_profile.
  rewrite collect_ages_single by lra.
  replace ((1700720000 - 1700000000) / 3600) with 200 by lra.
  cbn [fst].
  destruct (single_stale_age_in_two_buckets 200 ltac:(lra))
    as (Hrt & Hot & Hr & Hm & Ho).
  rewrite Hrt, Hot, Hr, Hm, Ho.
  repeat split; lra.
Qed.

(** Against C2 as stated: a record without [created_at] is in the
    collection and no record with its id is in what timestamp-direct
    retrieval returns. *)
Lemma timestamp_retrieval_drops_undated_record :
  let m := memory_undated "a" 0.9 in
  In m [m]
  /\ parse_timestamp iso_unavailable (get_created_at m) = None
  /\ ~ (exists m',
          In m' (get_memories_by_timestamp iso_unavailable 1700720000 [m] 5
                   None)
          /\ mem_id m' = mem_id m).
Proof.
  cbv zeta. split; [left; reflexivity|]. split; [reflexivity|].
  intros (m' & Hin & _). exact Hin.
Qed.

Lemma undated_record_kept_by_scorer_dropped_by_timestamp_retrieval_witness :
  let m := memory_undated "a" 0.9 in
  let scored :=
    fst (adaptive_temporal_scoring iso_unavailable fresh_instance 1700720000 [m]
           TEMPORAL_PRIMARY 0.75 None) in
  In m [m]
  /\ parse_timestamp iso_unavailable (get_created_at m) = None
  /\ TEMPORAL_PRIMARY <> SEMANTIC_ONLY
  /\ exists m', In m' scored /\ mem_id m' = "a"
                /\ temporal_score m' = Some (get_score m).
Proof.
  cbv zeta.
  pose proof (undated_record_kept_by_scorer_dropped_by_timestamp_retrieval
                iso_unavailable fresh_instance 1700720000
                [memory_undated "a" 0.9] TEMPORAL_PRIMARY 0.75 None 5 None)
    as (_ & Hkept & _).
  assert (Hin : In (memory_undated "a" 0.9) [memory_undated "a" 0.9])
    by (left; reflexivity).
  assert (Hi : TEMPORAL_PRIMARY <> SEMANTIC_ONLY) by discriminate.
  destruct (Hkept _ Hin eq_refl) as (m' & Hm' & Hid & _ & _ & _ & Hs & _).
  refine (conj Hin (conj eq_refl (conj Hi _))).
  exists m'. exact (conj Hm' (conj Hid (Hs Hi))).
Defined.

Lemma route_query_decision_table_witness :
  (0.9 > 0.8
   /\ route_query "last visited" [] TEMPORAL_PRIMARY (PyFloat 0.9)
      = ("timestamp_direct", TimestampDirectParams 5 None))
  /\ (0.75 <= 0.8
      /\ route_query "last visited" [] TEMPORAL_PRIMARY (PyFloat 0.75)
         = ("semantic_temporal_hybrid", HybridParams 3 (PyFloat 0.75) true))
  /\ (route_query_try "last visited" [] TEMPORAL_SECONDARY PyNone = None
      /\ route_query "last visited" [] TEMPORAL_SECONDARY PyNone
         = ("semantic_only", SemanticOnlyParams 5 true)).
Proof.
  destruct (route_query_decision_table "last visited" [])
    as (Hdirect & Hhybrid & _ & _ & Hraise & _).
  assert (H1 : 0.9 > 0.8) by lra.
  assert (H2 : 0.75 <= 0.8) by lra.
  exact (conj (conj H1 (Hdirect 0.9 H1))
           (conj (conj H2 (Hhybrid 0.75 H2))
              (conj eq_refl (Hraise TEMPORAL_SECONDARY PyNone eq_refl)))).
Defined.

Lemma linguistic_all_families :
  _linguistic_temporal_analysis "when most order recent before" = 1.
Proof.
  unfold _linguistic_temporal_analysis.
  replace (strip (lower "when most order recent before"))
    with "when most order recent before" by reflexivity.
  replace (matched_patterns "when most order recent before")
    with 5%nat by reflexivity.
  replace (startswith ["what was"; "show me"; "find my"]
             "when most order recent before"
           && (count_tokens false "when most order recent before" <=? 6)%nat)
    with false by reflexivity.
  replace (INR 5 / INR (List.length linguistic_patterns)) with 1
    by (simpl; lra).
  unfold py_min. repeat case_cmp; lra.
Qed.

Lemma update_max_similarity_unit (m : R) :
  0 <= m <= 1 -> update_max_similarity m [1] [1] = Some 1.
Proof.
  intros Hm. unfold update_max_similarity, np_norm. simpl.
  replace (1 * 1 + 0) with 1 by lra. rewrite sqrt_1.
  case_cmp; [lra|]. f_equal. unfold py_max. case_cmp; lra.
Qed.

Lemma semantic_detection_constant_embedding :
  fst (_semantic_temporal_detection embedding_constant fresh_instance
         "when most order recent before") = 1.
Proof.
  unfold _semantic_temporal_detection, semantic_patterns, fresh_instance,
    embedding_constant.
  cbn -[update_max_similarity].
  repeat (rewrite update_max_similarity_unit by lra;
          cbn -[update_max_similarity]).
  reflexivity.
Qed.

(** Both closed bounds are met: with the embedding service down and an empty
    collection, a query matching the five linguistic families has
    confidence exactly 0.3 and is [TEMPORAL_SECONDARY]; with an embedding
    service of cosine 1 the confidence is exactly 0.7 and the intent
    [TEMPORAL_PRIMARY]. *)
Lemma analyze_intent_weights_and_thresholds_witness :
  (let result :=
     fst (analyze_intent iso_unavailable embedding_unavailable fresh_instance
            1700720000 "when most order recent before" []) in
   snd result = 0.3 /\ fst result = TEMPORAL_SECONDARY)
  /\ (let result :=
        fst (analyze_intent iso_unavailable embedding_constant fresh_instance
               1700720000 "when most order recent before" []) in
      snd result = 0.7 /\ fst result = TEMPORAL_PRIMARY).
Proof.
  cbv zeta. split.
  - pose proof (analyze_intent_weights_and_thresholds iso_unavailable
                  embedding_unavailable fresh_instance 1700720000
                  "when most order recent before" []) as H.
    cbv zeta in H. rewrite linguistic_all_families in H.
    change (fst (_semantic_temporal_detection embedding_unavailable
                   fresh_instance "when most order recent before"))
      with 0 in H.
    change (_estimate_temporal_benefit iso_unavailable 1700720000
              "when most order recent before" []) with 0 in H.
    destruct H as (Hc & _ & Hsecondary & _).
    split; [rewrite Hc; lra | apply Hsecondary; lra].
  - pose proof (analyze_intent_weights_and_thresholds iso_unavailable
                  embedding_constant fresh_instance 1700720000
                  "when most order recent before" []) as H.
    cbv zeta in H.
    rewrite linguistic_all_families, semantic_detection_constant_embedding
      in H.
    change (_estimate_temporal_benefit iso_unavailable 1700720000
              "when most order recent before" []) with 0 in H.
    destruct H as (Hc & Hprimary & _).
    split; [rewrite Hc; lra | apply Hprimary; lra].
Defined.

Lemma temporal_score_monotone_within_bracket_witness :
  let profile :=
    fst (build_temporal_profile iso_unavailable fresh_instance 1700720000
           [memory_undated "a" 0.9]) in
  2 < 3
  /\ (recent_threshold_hours profile < 2 <= old_threshold_hours profile
      /\ recent_threshold_hours profile < 3 <= old_threshold_hours profile)
  /\ _calculate_temporal_score 3 profile
     <= _calculate_temporal_score 2 profile.
Proof.
  cbv zeta.
  assert (Ha : 2 < 3) by lra.
  assert (Hm : recent_threshold_hours
                 (fst (build_temporal_profile iso_unavailable fresh_instance
                         1700720000 [memory_undated "a" 0.9])) < 2
               <= old_threshold_hours
                    (fst (build_temporal_profile iso_unavailable
                            fresh_instance 1700720000
                            [memory_undated "a" 0.9]))
               /\ recent_threshold_hours
                    (fst (build_temporal_profile iso_unavailable
                            fresh_instance 1700720000
                            [memory_undated "a" 0.9])) < 3
                  <= old_threshold_hours
                       (fst (build_temporal_profile iso_unavailable
                               fresh_instance 1700720000
                               [memory_undated "a" 0.9])))
    by (simpl; lra).
  exact (conj Ha (conj Hm
           (proj1 (temporal_score_monotone_within_bracket iso_unavailable
                     2 3 Ha)
              fresh_instance 1700720000 [memory_undated "a" 0.9]
              (or_intror (or_introl Hm))))).
Defined.

Lemma undated_record_scores_semantic_witness :
  let m := memory_undated "a" 0.9 in
  let out :=
    fst (adaptive_temporal_scoring iso_unavailable fresh_instance 1700720000
           [memory_at "b" 1700000000 0.5; m] TEMPORAL_SECONDARY 0.5 None) in
  TEMPORAL_SECONDARY <> SEMANTIC_ONLY
  /\ In m [memory_at "b" 1700000000 0.5; m]
  /\ parse_timestamp iso_unavailable (get_created_at m) = None
  /\ exists m', In m' out /\ mem_id m' = "a" /\ temporal_score m' = Some 0.9.
Proof.
  cbv zeta.
  assert (Hi : TEMPORAL_SECONDARY <> SEMANTIC_ONLY) by discriminate.
  assert (Hin : In (memory_undated "a" 0.9)
                  [memory_at "b" 1700000000 0.5; memory_undated "a" 0.9])
    by (right; left; reflexivity).
  destruct (undated_record_scores_semantic iso_unavailable fresh_instance
              1700720000 [memory_at "b" 1700000000 0.5; memory_undated "a" 0.9]
              TEMPORAL_SECONDARY 0.5 None) as (Htemporal & _).
  destruct (Htemporal Hi) as (Hkept & _).
  destruct (Hkept _ Hin eq_refl) as (m' & Hm' & Hid & _ & _ & _ & Hs & _).
  refine (conj Hi (conj Hin (conj eq_refl _))).
  exists m'. exact (conj Hm' (conj Hid Hs)).
Defined.

Lemma get_memories_by_timestamp_filtered_sorted_limited_witness :
  let coll :=
    [memory_at "a" 1700000000 0.5; memory_undated "b" 0.9;
     memory_at "c" 1700716400 0.1] in
  let out := get_memories_by_timestamp iso_unavailable 1700720000 coll 1
               (Some 24) in
  (0 <= 1)%Z
  /\ (forall m, In m out -> exists ts,
        parse_timestamp iso_unavailable (get_created_at m) = Some ts
        /\ (1700720000 - ts) / 3600 <= 24)
  /\ (Z.of_nat (List.length out) <= 1)%Z.
Proof.
  cbv zeta.
  assert (Hlimit : (0 <= 1)%Z) by lia.
  destruct (get_memories_by_timestamp_filtered_sorted_limited
              iso_unavailable 1700720000
              [memory_at "a" 1700000000 0.5; memory_undated "b" 0.9;
               memory_at "c" 1700716400 0.1] 1 (Some 24))
    as (Hfilter & _ & Hlen).
  refine (conj Hlimit (conj _ (Hlen Hlimit))).
  intros m Hm.
  destruct (Hfilter m Hm) as (m0 & ts & _ & _ & _ & Hp & _ & Hf).
  exists ts. exact (conj Hp (Hf 24 eq_refl)).
Defined.


(** Against C9 as stated: with the limit -1 the slice drops the last of two
    records and returns one, which is more than the limit. *)
Lemma get_memories_by_timestamp_negative_limit :
  let out :=
    get_memories_by_timestamp iso_unavailable 1700720000
      [memory_at "a" 1700000000 0.5; memory_at "c" 1700716400 0.1]
      (-1) None in
  map mem_id out = ["c"]
  /\ ~ (Z.of_nat (List.length out) <= -1)%Z.
Proof.
  cbv zeta.
  assert (E : get_memories_by_timestamp iso_unavailable 1700720000
                [memory_at "a" 1700000000 0.5; memory_at "c" 1700716400 0.1]
                (-1) None
              = [mkMemory "c" "" (Some (PyFloat 1700716400)) (Some 0.1) None
                   None (Some ((1700720000 - 1700716400) / 3600)) None]).
  { unfold get_memories_by_timestamp, memory_at. py_eval. reflexivity. }
  rewrite E. split; [reflexivity | simpl; lia].
Qed.

Lemma estimate_temporal_benefit_saturated :
  _estimate_temporal_benefit iso_unavailable 1700720000
    "when most order recent before"
    [memory_at "a" 1700716400 0.5; memory_at "b" 1701080000 0.5] = 1.
Proof.
  unfold _estimate_temporal_benefit, memory_at, np_var, np_mean, np_count,
    py_min.
  py_eval. lra.
Qed.

(** C5.  On binary64 the confidence leaves [0,1].  The query matches the
    five linguistic families, so its linguistic score is 1; the collection
    holds a record of one hour ago and a record stamped 100 hours ahead, so
    both ages are below 24, the variance is above 1000 and the statistical
    benefit is 1; the embedding service answers every text with (1, 1, 1),
    so the cosine is 3.0 / (sqrt(3.0) * sqrt(3.0)), which rounds to
    1.0000000000000002: the semantic sub-score is above 1, and so is the
    combined confidence. *)
Theorem analyze_intent_confidence_exceeds_one_on_binary64 :
  let query := "when most order recent before" in
  let coll :=
    [memory_at "a" 1700716400 0.5; memory_at "b" 1701080000 0.5] in
  let semantic :=
    fst (Float64._semantic_temporal_detection Float64.embedding_ones []
           query) in
  _linguistic_temporal_analysis query = 1
  /\ _estimate_temporal_benefit iso_unavailable 1700720000 query coll = 1
  /\ Float64.temporal_benefit_of Float64.one Float64.one = Float64.one
  /\ semantic = Float64.next_after_one
  /\ Float64.exceeds_one semantic = true
  /\ Float64.combined_confidence semantic Float64.one Float64.one
     = Float64.next_after_one
  /\ Float64.exceeds_one
       (Float64.combined_confidence semantic Float64.one Float64.one)
     = true.
Proof.
  cbv zeta.
  split; [exact linguistic_all_families|].
  split; [exact estimate_temporal_benefit_saturated|].
  repeat split; vm_compute; reflexivity.
Qed.

(* ================================================================= *)
(** ** The query-embedding cache *)

Lemma cached_embedding_stores (emb : string -> option embedding)
    (cache cache' : list (string * embedding)) (text : string)
    (e : embedding) :
  cached_embedding emb cache text = Some (e, cache') ->
  cache_get cache' text = Some e
  /\ (forall k v, cache_get cache k = Some v -> cache_get cache' k = Some v).
Proof.
  unfold cached_embedding.
  destruct (cache_get cache text) as [e0|] eqn:Eget.
  - intros H. injection H as <- <-. auto.
  - destruct (emb text) as [e1|]; [|discriminate].
    intros H. injection H as <- <-. split.
    + unfold cache_get, cache_set. simpl. rewrite String.eqb_refl.
      reflexivity.
    + intros k v Hk. unfold cache_get, cache_set. simpl.
      destruct (String.eqb text k) eqn:Ek; [|exact Hk].
      apply String.eqb_eq in Ek. subst k. congruence.
Qed.

Lemma cached_embedding_hit (emb : string -> option embedding)
    (cache : list (string * embedding)) (text : string) (e : embedding) :
  cache_get cache text = Some e ->
  cached_embedding emb cache text = Some (e, cache).
Proof. intros H. unfold cached_embedding. rewrite H. reflexivity. Qed.

(** A loop that ended normally can be replayed from any larger cache, with
    any embedding service, and then touches neither. *)
Lemma similarity_loop_replay (emb : string -> option embedding)
    (patterns : list string) :
  forall cache q m r cache',
    similarity_loop emb cache q patterns m = (Some r, cache') ->
    (forall k v, cache_get cache k = Some v -> cache_get cache' k = Some v)
    /\ (forall emb' cache'',
          (forall k v, cache_get cache' k = Some v ->
                       cache_get cache'' k = Some v) ->
          similarity_loop emb' cache'' q patterns m = (Some r, cache'')).
Proof.
  induction patterns as [|pattern rest IH]; intros cache q m r cache' H;
    simpl in H.
  - injection H as <- <-. split; [auto|]. intros. reflexivity.
  - destruct (cached_embedding emb cache pattern) as [[pe cache1]|] eqn:Ec;
      [|discriminate].
    destruct (update_max_similarity m q pe) as [m1|] eqn:Eu; [|discriminate].
    apply cached_embedding_stores in Ec. destruct Ec as [Hget Hext1].
    destruct (IH cache1 q m1 r cache' H) as [Hext2 Hreplay].
    split; [auto|].
    intros emb' cache'' Hext3. simpl.
    rewrite (cached_embedding_hit emb' cache'' pattern pe) by auto.
    rewrite Eu. apply Hreplay. exact Hext3.
Qed.

(** X17.  A non-zero detection score comes from the cache the second time:
    calling the detection again on the resulting instance returns the same
    score and the same instance, whatever the embedding service now
    answers, even if it is down. *)
Theorem semantic_detection_repeatable
    (emb emb' : string -> option embedding) (self : TemporalIntelligence)
    (query : string) :
  let first := _semantic_temporal_detection emb self query in
  fst first <> 0 ->
  _semantic_temporal_detection emb' (snd first) query = first.
Proof.
  cbv zeta. unfold _semantic_temporal_detection.
  destruct (cached_embedding emb (_query_embeddings_cache self) query)
    as [[qe cache1]|] eqn:Eq; [|cbn [fst]; congruence].
  destruct (similarity_loop emb cache1 qe semantic_patterns 0)
    as [[r|] cache'] eqn:El; [|cbn [fst]; congruence].
  cbn [fst snd _query_embeddings_cache _profile]. intros _.
  apply cached_embedding_stores in Eq. destruct Eq as [Hq _].
  destruct (similarity_loop_replay emb semantic_patterns cache1 qe 0 r
              cache' El) as [Hext Hreplay].
  rewrite (cached_embedding_hit emb' cache' query qe) by auto.
  rewrite (Hreplay emb' cache') by auto.
  reflexivity.
Qed.

Lemma semantic_detection_repeatable_witness :
  let first :=
    _semantic_temporal_detection embedding_constant fresh_instance
      "when most order recent before" in
  fst first <> 0
  /\ _semantic_temporal_detection embedding_unavailable (snd first)
       "when most order recent before" = first.
Proof.
  cbv zeta.
  assert (H : fst (_semantic_temporal_detection embedding_constant
                     fresh_instance "when most order recent before") <> 0)
    by (rewrite semantic_detection_constant_embedding; lra).
  exact (conj H
           (semantic_detection_repeatable embedding_constant
              embedding_unavailable fresh_instance
              "when most order recent before" H)).
Defined.

(* ================================================================= *)
(** ** The embedding cache of [utils.py] *)

Lemma dict_get_absent {V : Type} (d : list (string * V)) (k : string) :
  Utils.dict_get d k = None <-> ~ In k (map fst d).
Proof.
  unfold Utils.dict_get. induction d as [|[k' v'] d IH]; simpl.
  - split; [auto | reflexivity].
  - destruct (String.eqb k' k) eqn:E.
    + apply String.eqb_eq in E. split; [discriminate | intros H; tauto].
    + apply String.eqb_neq in E. rewrite IH. tauto.
Qed.

Lemma dict_set_absent {V : Type} (d : list (string * V)) (k : string)
    (v : V) :
  ~ In k (map fst d) -> Utils.dict_set d k v = (d ++ [(k, v)])%list.
Proof.
  induction d as [|[k' v'] d IH]; simpl; intros H; [reflexivity|].
  destruct (String.eqb k' k) eqn:E.
  - apply String.eqb_eq in E. tauto.
  - rewrite IH by tauto. reflexivity.
Qed.

Lemma dict_get_last {V : Type} (d : list (string * V)) (k : string) (v : V) :
  ~ In k (map fst d) -> Utils.dict_get (d ++ [(k, v)])%list k = Some v.
Proof.
  unfold Utils.dict_get. induction d as [|[k' v'] d IH]; simpl; intros H.
  - rewrite String.eqb_refl. reflexivity.
  - destruct (String.eqb k' k) eqn:E.
    + apply String.eqb_eq in E. tauto.
    + apply IH. tauto.
Qed.

Lemma dict_del_absent {V : Type} (d : list (string * V)) (k : string) :
  ~ In k (map fst d) -> Utils.dict_del d k = d.
Proof.
  unfold Utils.dict_del. induction d as [|[k' v'] d IH]; simpl; intros H;
    [reflexivity|].
  destruct (String.eqb k' k) eqn:E.
  - apply String.eqb_eq in E. tauto.
  - simpl. rewrite IH by tauto. reflexivity.
Qed.

(** With distinct keys, deleting the first [n] keys one by one drops the
    first [n] entries. *)
Lemma delete_first_keys {V : Type} (n : nat) (d : list (string * V)) :
  NoDup (map fst d) ->
  fold_left Utils.dict_del (firstn n (map fst d)) d = skipn n d.
Proof.
  revert d. induction n as [|n IH]; intros [|[k v] d] Hnd; try reflexivity.
  simpl in Hnd. inversion Hnd as [|? ? Hk Hnd']; subst.
  cbn [map fst firstn fold_left skipn].
  replace (Utils.dict_del ((k, v) :: d) k) with d.
  - apply IH, Hnd'.
  - unfold Utils.dict_del. simpl. rewrite String.eqb_refl. simpl.
    symmetry. apply (dict_del_absent d k Hk).
Qed.

Lemma NoDup_skipn {A : Type} (n : nat) (l : list A) :
  NoDup l -> NoDup (skipn n l).
Proof.
  revert l. induction n as [|n IH]; intros [|x l] H; simpl; auto.
  inversion H; subst. apply IH. assumption.
Qed.

Lemma in_skipn {A : Type} (n : nat) (l : list A) (x : A) :
  In x (skipn n l) -> In x l.
Proof.
  revert l. induction n as [|n IH]; intros [|y l] H; simpl in *; auto.
Qed.

(** The cache after a miss that the API answers. *)
Lemma create_embedding_miss (key : string -> string)
    (api : string -> option embedding) (ctx : bool)
    (st : Utils.EmbeddingState) (text : string)
    (md : option Utils.Metadata) (e : embedding) :
  let sent := Utils.embedding_text_of ctx text md in
  NoDup (map fst (Utils._embedding_cache st)) ->
  Utils.dict_get (Utils._embedding_cache st) (key sent) = None ->
  api sent = Some e ->
  Utils.create_embedding key api ctx st text md
  = (Some e,
     Utils.mkEmbeddingState
       (if (1000 <=? List.length (Utils._embedding_cache st))%nat
        then skipn 200 (Utils._embedding_cache st ++ [(key sent, e)])%list
        else (Utils._embedding_cache st ++ [(key sent, e)])%list)
       (Utils.hits st) (Utils.misses st + 1)).
Proof.
  intros sent Hnd Hmiss Hapi. unfold Utils.create_embedding. fold sent.
  rewrite Hmiss, Hapi.
  apply dict_get_absent in Hmiss.
  rewrite (dict_set_absent _ _ e Hmiss).
  rewrite length_app. cbn [List.length].
  replace (1000 <? List.length (Utils._embedding_cache st) + 1)%nat
    with (1000 <=? List.length (Utils._embedding_cache st))%nat.
  2:{ destruct (1000 <=? _)%nat eqn:E1, (1000 <? _)%nat eqn:E2;
        try reflexivity;
        [apply Nat.leb_le in E1; apply Nat.ltb_ge in E2
        |apply Nat.leb_gt in E1; apply Nat.ltb_lt in E2]; lia. }
  destruct (1000 <=? List.length (Utils._embedding_cache st))%nat;
    [|reflexivity].
  unfold Utils.evict_oldest. rewrite delete_first_keys; [reflexivity|].
  rewrite map_app. simpl.
  apply NoDup_app; [exact Hnd | repeat constructor; intros [] |].
  intros k Hk [<-|[]]. exact (Hmiss Hk).
Qed.

(** X18.  The cache keeps distinct keys and never holds more than 1000
    entries: a call that finds both true leaves both true. *)
Theorem create_embedding_cache_bounded (key : string -> string)
    (api : string -> option embedding) (ctx : bool)
    (st : Utils.EmbeddingState) (text : string)
    (md : option Utils.Metadata) :
  NoDup (map fst (Utils._embedding_cache st)) ->
  (List.length (Utils._embedding_cache st) <= 1000)%nat ->
  let st' := snd (Utils.create_embedding key api ctx st text md) in
  NoDup (map fst (Utils._embedding_cache st'))
  /\ (List.length (Utils._embedding_cache st') <= 1000)%nat.
Proof.
  intros Hnd Hlen. cbv zeta.
  set (sent := Utils.embedding_text_of ctx text md).
  destruct (Utils.dict_get (Utils._embedding_cache st) (key sent))
    as [e0|] eqn:Eget.
  - unfold Utils.create_embedding. fold sent. rewrite Eget. simpl. auto.
  - destruct (api sent) as [e|] eqn:Eapi.
    + rewrite (create_embedding_miss key api ctx st text md e Hnd Eget Eapi).
      cbn [snd Utils._embedding_cache]. fold sent.
      apply dict_get_absent in Eget.
      assert (Hnd' : NoDup (map fst (Utils._embedding_cache st
                                     ++ [(key sent, e)])%list)).
      { rewrite map_app. simpl.
        apply NoDup_app; [exact Hnd | repeat constructor; intros [] |].
        intros k Hk [<-|[]]. exact (Eget Hk). }
      destruct (1000 <=? List.length (Utils._embedding_cache st))%nat eqn:E.
      * apply Nat.leb_le in E. split.
        -- rewrite <- skipn_map. apply NoDup_skipn, Hnd'.
        -- rewrite length_skipn, length_app. simpl. lia.
      * apply Nat.leb_gt in E. split; [exact Hnd'|].
        rewrite length_app. simpl. lia.
    + unfold Utils.create_embedding. fold sent. rewrite Eget, Eapi.
      simpl. auto.
Qed.

(** X19.  After a call that returned an embedding, a call for any text with
    the same cache key (the same text with the same metadata, or a text
    whose truncated hash collides) returns that embedding from the cache:
    the API is not consulted, whatever it would answer, the cache is left
    as it is and one hit is counted. *)
Theorem create_embedding_answers_from_cache (key : string -> string)
    (api api' : string -> option embedding) (ctx : bool)
    (st : Utils.EmbeddingState) (text text' : string)
    (md md' : option Utils.Metadata) (e : embedding) :
  NoDup (map fst (Utils._embedding_cache st)) ->
  fst (Utils.create_embedding key api ctx st text md) = Some e ->
  key (Utils.embedding_text_of ctx text' md')
  = key (Utils.embedding_text_of ctx text md) ->
  let st' := snd (Utils.create_embedding key api ctx st text md) in
  Utils.create_embedding key api' ctx st' text' md'
  = (Some e,
     Utils.mkEmbeddingState (Utils._embedding_cache st')
       (Utils.hits st' + 1) (Utils.misses st')).
Proof.
  intros Hnd Hfirst Hkey. cbv zeta.
  set (sent := Utils.embedding_text_of ctx text md) in *.
  assert (Hcached :
            Utils.dict_get
              (Utils._embedding_cache
                 (snd (Utils.create_embedding key api ctx st text md)))
              (key sent) = Some e).
  { destruct (Utils.dict_get (Utils._embedding_cache st) (key sent))
      as [e0|] eqn:Eget.
    - unfold Utils.create_embedding in *. fold sent in Hfirst |- *.
      rewrite Eget in *. simpl in *. congruence.
    - destruct (api sent) as [e1|] eqn:Eapi.
      + rewrite (create_embedding_miss key api ctx st text md e1
                   Hnd Eget Eapi) in *.
        cbn [fst snd Utils._embedding_cache] in *. fold sent.
        injection Hfirst as ->.
        apply dict_get_absent in Eget.
        destruct (1000 <=? List.length (Utils._embedding_cache st))%nat
          eqn:E; [|apply dict_get_last, Eget].
        apply Nat.leb_le in E.
        rewrite skipn_app.
        replace (200 - List.length (Utils._embedding_cache st))%nat
          with 0%nat by lia.
        rewrite skipn_O. apply dict_get_last.
        rewrite <- skipn_map. intros Hin. apply in_skipn in Hin. tauto.
      + unfold Utils.create_embedding in Hfirst. fold sent in Hfirst.
        rewrite Eget, Eapi in Hfirst. discriminate. }
  unfold Utils.create_embedding at 1. rewrite Hkey. fold sent.
  rewrite Hcached. reflexivity.
Qed.

(** X20.  A miss answered by the API appends the new entry; when the cache
    already holds 1000 entries the 200 oldest are then dropped and every
    other entry, the new one included, is kept.  A failed API call counts
    as a miss and leaves the cache as it was. *)
Theorem create_embedding_eviction (key : string -> string)
    (api : string -> option embedding) (ctx : bool)
    (st : Utils.EmbeddingState) (text : string)
    (md : option Utils.Metadata) :
  let sent := Utils.embedding_text_of ctx text md in
  let cache := Utils._embedding_cache st in
  let result := Utils.create_embedding key api ctx st text md in
  NoDup (map fst cache) ->
  Utils.dict_get cache (key sent) = None ->
  (forall e, api sent = Some e ->
     fst result = Some e
     /\ Utils._embedding_cache (snd result)
        = (if (1000 <=? List.length cache)%nat
           then skipn 200 cache ++ [(key sent, e)]
           else cache ++ [(key sent, e)])%list)
  /\ (api sent = None ->
      result
      = (None,
         Utils.mkEmbeddingState cache (Utils.hits st) (Utils.misses st + 1))).
Proof.
  intros sent cache result Hnd Hmiss. split.
  - intros e Hapi. subst result.
    rewrite (create_embedding_miss key api ctx st text md e Hnd Hmiss Hapi).
    cbn [fst snd Utils._embedding_cache]. split; [reflexivity|].
    fold sent. fold cache.
    destruct (1000 <=? List.length cache)%nat eqn:E; [|reflexivity].
    apply Nat.leb_le in E. rewrite skipn_app.
    replace (200 - List.length cache)%nat with 0%nat by lia.
    rewrite skipn_O. reflexivity.
  - intros Hapi. subst result. unfold Utils.create_embedding.
    fold sent. fold cache. rewrite Hmiss, Hapi. reflexivity.
Qed.

(* ================================================================= *)
(** ** The further properties on sample data *)

Lemma np_percentile_single (a : R) (q : nat) : np_percentile [a] q = a.
Proof. unfold np_percentile. simpl. lra. Qed.

Lemma analyze_intent_sample_confidence :
  snd (fst (analyze_intent iso_unavailable embedding_unavailable
              fresh_instance 1700720000 "when most order recent before" []))
  = 0.3.
Proof.
  rewrite analyze_intent_result. cbv zeta. cbn [snd].
  rewrite linguistic_all_families.
  change (fst (_semantic_temporal_detection embedding_unavailable
                 fresh_instance "when most order recent before")) with 0.
  change (_estimate_temporal_benefit iso_unavailable 1700720000
            "when most order recent before" []) with 0.
  lra.
Qed.

Lemma temporal_score_never_rewards_age_witness :
  -1 <= std_age_hours default_profile
  /\ 0.5 <= 200
  /\ _calculate_temporal_score 200 default_profile
     <= _calculate_temporal_score 0.5 default_profile.
Proof.
  assert (Hs : -1 <= std_age_hours default_profile) by (simpl; lra).
  assert (Ha : 0.5 <= 200) by lra.
  exact (conj Hs (conj Ha
           (temporal_score_never_rewards_age default_profile 0.5 200 Hs Ha))).
Defined.

Lemma temporal_score_bounds_witness :
  0 <= 5
  /\ 0 <= std_age_hours default_profile
  /\ _calculate_temporal_score 5 default_profile
     <= boost 5 default_profile <= 1.2.
Proof.
  assert (Ha : 0 <= 5) by lra.
  assert (Hs : 0 <= std_age_hours default_profile) by (simpl; lra).
  exact (conj Ha (conj Hs
           (proj2 (temporal_score_bounds default_profile 5) Ha Hs))).
Defined.

Lemma fused_score_between_components_witness :
  let m := memory_at "a" 1700000000 0.5 in
  TEMPORAL_PRIMARY <> SEMANTIC_ONLY
  /\ 0 <= 0.75 <= 1
  /\ In m [m]
  /\ parse_timestamp iso_unavailable (get_created_at m) = Some 1700000000
  /\ exists m' f,
       In m' (fst (adaptive_temporal_scoring iso_unavailable fresh_instance
                     1700720000 [m] TEMPORAL_PRIMARY 0.75 None))
       /\ temporal_score m' = Some f.
Proof.
  cbv zeta.
  assert (Hi : TEMPORAL_PRIMARY <> SEMANTIC_ONLY) by discriminate.
  assert (Hc : 0 <= 0.75 <= 1) by lra.
  assert (Hin : In (memory_at "a" 1700000000 0.5)
                  [memory_at "a" 1700000000 0.5]) by (left; reflexivity).
  assert (Hp : parse_timestamp iso_unavailable
                 (get_created_at (memory_at "a" 1700000000 0.5))
               = Some 1700000000)
    by (apply parse_timestamp_float; lra).
  destruct (fused_score_between_components iso_unavailable fresh_instance
              1700720000 [memory_at "a" 1700000000 0.5] TEMPORAL_PRIMARY
              0.75 None (memory_at "a" 1700000000 0.5) 1700000000
              Hi Hc Hin Hp) as (m' & f & Hm' & _ & Hf & _).
  refine (conj Hi (conj Hc (conj Hin (conj Hp _)))).
  exists m', f. exact (conj Hm' Hf).
Defined.

Lemma adaptive_scoring_decorates_every_record_witness :
  TEMPORAL_SECONDARY <> SEMANTIC_ONLY
  /\ forall m',
       In m' (fst (adaptive_temporal_scoring iso_unavailable fresh_instance
                     1700720000
                     [memory_undated "a" 0.9; memory_at "b" 1700000000 0.5]
                     TEMPORAL_SECONDARY 0.5 None)) ->
       temporal_score m' <> None.
Proof.
  assert (Hi : TEMPORAL_SECONDARY <> SEMANTIC_ONLY) by discriminate.
  refine (conj Hi _). intros m' Hm'.
  exact (proj1 (proj2 (adaptive_scoring_decorates_every_record
                         iso_unavailable fresh_instance 1700720000
                         [memory_undated "a" 0.9;
                          memory_at "b" 1700000000 0.5]
                         TEMPORAL_SECONDARY 0.5 None Hi) m' Hm')).
Defined.

Lemma stored_profile_is_reused_witness :
  let coll := [memory_at "a" 1700000000 0.5] in
  let built :=
    build_temporal_profile iso_unavailable fresh_instance 1700720000 coll in
  collect_ages iso_unavailable 1700720000 coll <> []
  /\ TEMPORAL_PRIMARY <> SEMANTIC_ONLY
  /\ _profile (snd built) = Some (fst built).
Proof.
  cbv zeta.
  assert (Hages : collect_ages iso_unavailable 1700720000
                    [memory_at "a" 1700000000 0.5] <> [])
    by (rewrite collect_ages_single by lra; discriminate).
  assert (Hi : TEMPORAL_PRIMARY <> SEMANTIC_ONLY) by discriminate.
  exact (conj Hages (conj Hi
           (proj1 (stored_profile_is_reused iso_unavailable fresh_instance
                     1700720000 1700723600 [memory_at "a" 1700000000 0.5]
                     [memory_undated "b" 0.9] TEMPORAL_PRIMARY 0.75
                     Hages Hi)))).
Defined.

Lemma build_temporal_profile_fractions_sum_to_one_witness :
  let coll := [memory_at "a" 1700000000 0.5] in
  let ages := collect_ages iso_unavailable 1700007200 coll in
  let d :=
    temporal_distribution
      (fst (build_temporal_profile iso_unavailable fresh_instance 1700007200
              coll)) in
  ages <> []
  /\ np_percentile ages 25 <= 168
  /\ 1 <= np_percentile ages 75
  /\ recent d + medium d + old d = 1.
Proof.
  cbv zeta.
  assert (E : collect_ages iso_unavailable 1700007200
                [memory_at "a" 1700000000 0.5]
              = [(1700007200 - 1700000000) / 3600])
    by (apply collect_ages_single; lra).
  assert (Hne : collect_ages iso_unavailable 1700007200
                  [memory_at "a" 1700000000 0.5] <> [])
    by (rewrite E; discriminate).
  assert (H25 : np_percentile
                  (collect_ages iso_unavailable 1700007200
                     [memory_at "a" 1700000000 0.5]) 25 <= 168)
    by (rewrite E, np_percentile_single; lra).
  assert (H75 : 1 <= np_percentile
                       (collect_ages iso_unavailable 1700007200
                          [memory_at "a" 1700000000 0.5]) 75)
    by (rewrite E, np_percentile_single; lra).
  exact (conj Hne (conj H25 (conj H75
           (proj2 (build_temporal_profile_fractions_sum_to_one
                     iso_unavailable fresh_instance 1700007200
                     [memory_at "a" 1700000000 0.5] Hne H25 H75))))).
Defined.

Lemma build_temporal_profile_default_or_stored_witness :
  (forall m, In m [memory_undated "a" 0.9] ->
             parse_timestamp iso_unavailable (get_created_at m) = None)
  /\ build_temporal_profile iso_unavailable fresh_instance 1700720000
       [memory_undated "a" 0.9] = (default_profile, fresh_instance).
Proof.
  assert (H : forall m, In m [memory_undated "a" 0.9] ->
                        parse_timestamp iso_unavailable (get_created_at m)
                        = None).
  { intros m [<-|[]]. reflexivity. }
  exact (conj H
           (proj1 (build_temporal_profile_default_or_stored iso_unavailable
                     fresh_instance 1700720000 [memory_undated "a" 0.9]) H)).
Defined.

Lemma get_memories_by_timestamp_length_witness :
  (0 <= 1)%Z
  /\ (List.length
        (get_memories_by_timestamp iso_unavailable 1700720000
           [memory_at "a" 1700000000 0.5; memory_undated "b" 0.9] 1 None)
      <= 1)%nat.
Proof.
  assert (Hl : (0 <= 1)%Z) by lia.
  refine (conj Hl _).
  rewrite (get_memories_by_timestamp_length iso_unavailable 1700720000
             [memory_at "a" 1700000000 0.5; memory_undated "b" 0.9] 1 None
             Hl).
  apply Nat.le_min_l.
Defined.

Lemma get_memories_by_timestamp_keeps_newest_witness :
  let coll :=
    [memory_at "a" 1700000000 0.5; memory_undated "b" 0.9;
     memory_at "d" 1700712800 0.1; memory_at "c" 1700716400 0.1] in
  let out :=
    get_memories_by_timestamp iso_unavailable 1700720000 coll 5 (Some 24) in
  let m :=
    mkMemory "d" "" (Some (PyFloat 1700712800)) (Some 0.1) None None
      (Some ((1700720000 - 1700712800) / 3600)) None in
  In m out
  /\ 1700712800 < 1700716400
  /\ exists m0', In m0' out /\ mem_id m0' = "c".
Proof.
  cbv zeta.
  assert (Hm : In (mkMemory "d" "" (Some (PyFloat 1700712800)) (Some 0.1)
                     None None (Some ((1700720000 - 1700712800) / 3600))
                     None)
                 (get_memories_by_timestamp iso_unavailable 1700720000
                    [memory_at "a" 1700000000 0.5; memory_undated "b" 0.9;
                     memory_at "d" 1700712800 0.1;
                     memory_at "c" 1700716400 0.1] 5 (Some 24)))
    by (rewrite get_memories_by_timestamp_sample; right; left; reflexivity).
  assert (Hlt : 1700712800 < 1700716400) by lra.
  assert (Hpm : parse_timestamp iso_unavailable
                  (get_created_at
                     (mkMemory "d" "" (Some (PyFloat 1700712800)) (Some 0.1)
                        None None
                        (Some ((1700720000 - 1700712800) / 3600)) None))
                = Some 1700712800)
    by (apply parse_timestamp_float; lra).
  assert (Hin0 : In (memory_at "c" 1700716400 0.1)
                   [memory_at "a" 1700000000 0.5; memory_undated "b" 0.9;
                    memory_at "d" 1700712800 0.1;
                    memory_at "c" 1700716400 0.1])
    by (right; right; right; left; reflexivity).
  assert (Hp0 : parse_timestamp iso_unavailable
                  (get_created_at (memory_at "c" 1700716400 0.1))
                = Some 1700716400)
    by (apply parse_timestamp_float; lra).
  assert (Hf : forall h, Some 24 = Some h ->
                         (1700720000 - 1700716400) / 3600 <= h)
    by (intros h E; injection E as <-; lra).
  destruct (get_memories_by_timestamp_keeps_newest iso_unavailable
              1700720000 _ 5 (Some 24) _ _ _ _ Hm Hpm Hin0 Hp0 Hf Hlt)
    as (m0' & Hm0' & Hid & _).
  refine (conj Hm (conj Hlt _)). exists m0'. exact (conj Hm0' Hid).
Defined.

Lemma routing_by_combined_confidence_witness :
  let c :=
    snd (fst (analyze_intent iso_unavailable embedding_unavailable
                fresh_instance 1700720000 "when most order recent before"
                [])) in
  0.3 <= c < 0.7
  /\ route_query "when most order recent before" []
       (fst (fst (analyze_intent iso_unavailable embedding_unavailable
                    fresh_instance 1700720000
                    "when most order recent before" [])))
       (PyFloat c)
     = ("semantic_temporal_hybrid", HybridParams 2 (PyFloat (c * 0.5)) false).
Proof.
  cbv zeta.
  assert (Hc : 0.3 <= snd (fst (analyze_intent iso_unavailable
                                  embedding_unavailable fresh_instance
                                  1700720000
                                  "when most order recent before" []))
               < 0.7)
    by (rewrite analyze_intent_sample_confidence; lra).
  exact (conj Hc
           (proj1 (proj2 (proj2 (proj2
              (routing_by_combined_confidence iso_unavailable
                 embedding_unavailable fresh_instance 1700720000
                 "when most order recent before" [])))) Hc)).
Defined.

Lemma embedding_failure_rules_out_timestamp_direct_witness :
  cache_get (_query_embeddings_cache fresh_instance) "latest pages" = None
  /\ embedding_unavailable "latest pages" = None
  /\ fst (fst (analyze_intent iso_unavailable embedding_unavailable
                 fresh_instance 1700720000 "latest pages" []))
     <> TEMPORAL_PRIMARY.
Proof.
  exact (conj eq_refl (conj eq_refl
           (proj1 (proj2
              (embedding_failure_rules_out_timestamp_direct iso_unavailable
                 embedding_unavailable fresh_instance 1700720000
                 "latest pages" [] eq_refl eq_refl))))).
Defined.

Lemma estimate_temporal_benefit_by_recency_witness :
  collect_ages iso_unavailable 1700720000 [memory_undated "a" 0.9] = []
  /\ _estimate_temporal_benefit iso_unavailable 1700720000 "latest pages"
       [memory_undated "a" 0.9] = 0.
Proof.
  exact (conj eq_refl
           (proj1 (estimate_temporal_benefit_by_recency iso_unavailable
                     1700720000 "latest pages" [memory_undated "a" 0.9])
              eq_refl)).
Defined.

Lemma explain_ranking_cases_witness :
  (SEMANTIC_ONLY = SEMANTIC_ONLY \/ [memory_undated "a" 0.9] = [])
  /\ explain_ranking format_fixed_sample str_float_sample fresh_instance
       [memory_undated "a" 0.9] SEMANTIC_ONLY
     = "Query Intent: semantic_only".
Proof.
  assert (H : SEMANTIC_ONLY = SEMANTIC_ONLY \/ [memory_undated "a" 0.9] = [])
    by (left; reflexivity).
  exact (conj H
           (proj1 (explain_ranking_cases format_fixed_sample
                     str_float_sample fresh_instance
                     [memory_undated "a" 0.9] SEMANTIC_ONLY) H)).
Defined.

Lemma explain_ranking_after_retrieval_witness :
  let ms := [memory_at "a" 1700000000 0.5] in
  let out := get_memories_by_timestamp iso_unavailable 1700720000 ms 5 None in
  TEMPORAL_PRIMARY <> SEMANTIC_ONLY
  /\ (forall m, In m ms -> temporal_score m = None)
  /\ out <> []
  /\ explain_ranking format_fixed_sample str_float_sample fresh_instance out
       TEMPORAL_PRIMARY
     = "Query processed with intent: temporal_primary".
Proof.
  cbv zeta.
  assert (Hi : TEMPORAL_PRIMARY <> SEMANTIC_ONLY) by discriminate.
  assert (Hraw : forall m, In m [memory_at "a" 1700000000 0.5] ->
                           temporal_score m = None)
    by (intros m [<-|[]]; reflexivity).
  assert (Hne : get_memories_by_timestamp iso_unavailable 1700720000
                  [memory_at "a" 1700000000 0.5] 5 None <> []).
  { unfold get_memories_by_timestamp, memory_at. py_eval. discriminate. }
  exact (conj Hi (conj Hraw (conj Hne
           (proj2 (explain_ranking_after_retrieval iso_unavailable
                     format_fixed_sample str_float_sample fresh_instance
                     1700720000 [memory_at "a" 1700000000 0.5]
                     TEMPORAL_PRIMARY 0.9 None 5 None Hi) Hraw Hne)))).
Defined.

Lemma create_embedding_cache_bounded_witness :
  NoDup (map fst (Utils._embedding_cache empty_embedding_state))
  /\ (List.length (Utils._embedding_cache empty_embedding_state) <= 1000)%nat
  /\ (List.length
        (Utils._embedding_cache
           (snd (Utils.create_embedding cache_key_sample embedding_constant
                   true empty_embedding_state "latest pages" None)))
      <= 1000)%nat.
Proof.
  assert (Hnd : NoDup (map fst (Utils._embedding_cache empty_embedding_state)))
    by constructor.
  assert (Hlen : (List.length (Utils._embedding_cache empty_embedding_state)
                  <= 1000)%nat) by (simpl; lia).
  exact (conj Hnd (conj Hlen
           (proj2 (create_embedding_cache_bounded cache_key_sample
                     embedding_constant true empty_embedding_state
                     "latest pages" None Hnd Hlen)))).
Defined.

Lemma create_embedding_answers_from_cache_witness :
  let first :=
    Utils.create_embedding cache_key_sample embedding_constant true
      empty_embedding_state "latest pages" None in
  NoDup (map fst (Utils._embedding_cache empty_embedding_state))
  /\ fst first = Some [1]
  /\ fst (Utils.create_embedding cache_key_sample embedding_unavailable true
            (snd first) "latest pages" None) = Some [1].
Proof.
  cbv zeta.
  assert (Hnd : NoDup (map fst (Utils._embedding_cache empty_embedding_state)))
    by constructor.
  assert (Hfirst : fst (Utils.create_embedding cache_key_sample
                          embedding_constant true empty_embedding_state
                          "latest pages" None) = Some [1]) by reflexivity.
  refine (conj Hnd (conj Hfirst _)).
  rewrite (create_embedding_answers_from_cache cache_key_sample
             embedding_constant embedding_unavailable true
             empty_embedding_state "latest pages" "latest pages" None None
             [1] Hnd Hfirst eq_refl).
  reflexivity.
Defined.

Lemma create_embedding_eviction_witness :
  NoDup (map fst (Utils._embedding_cache empty_embedding_state))
  /\ Utils.dict_get (Utils._embedding_cache empty_embedding_state)
       (cache_key_sample "latest pages") = None
  /\ embedding_unavailable "latest pages" = None
  /\ Utils.create_embedding cache_key_sample embedding_unavailable true
       empty_embedding_state "latest pages" None
     = (None, Utils.mkEmbeddingState [] 0 1).
Proof.
  assert (Hnd : NoDup (map fst (Utils._embedding_cache empty_embedding_state)))
    by constructor.
  exact (conj Hnd (conj eq_refl (conj eq_refl
           (proj2 (create_embedding_eviction cache_key_sample
                     embedding_unavailable true empty_embedding_state
                     "latest pages" None Hnd eq_refl) eq_refl)))).
Defined.

Lemma retrieve_final_memories_outcome_witness :
  (0 <= 5)%Z
  /\ forall final self',
       retrieve_final_memories iso_unavailable embedding_unavailable
         fresh_instance 1700720000 "latest pages"
         [memory_undated "a" 0.9] None 5 = Some (final, self') ->
       (List.length final <= 5)%nat.
Proof.
  assert (Hl : (0 <= 5)%Z) by lia.
  refine (conj Hl _). intros final self' H.
  exact (proj2 (retrieve_final_memories_outcome iso_unavailable
                  embedding_unavailable fresh_instance 1700720000
                  "latest pages" [memory_undated "a" 0.9] None 5)
           final self' H Hl).
Defined.

